(** * Leader-election configuration helpers of library-go

    A shallow embedding of package [leaderelection] of library-go
    ([ToConfigMapLeaderElection], [LeaderElectionDefaulting] and
    [LeaderElectionSNOConfig]) together with the properties that the
    design document states about them, followed by the static-pod
    fallback controller (package [staticpodfallback]: [New], [sync]) and
    the cluster-status helpers (package [clusterstatus]) with properties
    read off their code.

    Go values are modelled as follows.
    - [string] is a byte string; [len s] is [String.length s].
    - [time.Duration] is a signed count of nanoseconds, an integer [Z].
      The only arithmetic the package does on durations is the constant
      products [137 * time.Second] and the like, which are far inside the
      64-bit range, so no wrap-around can occur.
    - structs are records, grouped in one module per Go package they come
      from, so that [configv1.LeaseDuration] and
      [leaderelection.LeaseDuration] stay apart as in the source.
    - calls into the operating system and into other libraries
      (hostname, UUIDs, the service-account file, client and lock
      construction, [strings.TrimSpace]) are answered by an environment
      [Env]; the calls that have an effect outside the package are also
      appended to a trace, in the order they are made.
    - local variables whose address is taken or that are assigned in
      place live in a store of cells, so that "does not mutate the
      original" is a statement about that store. *)

From Stdlib Require Import ZArith String Ascii Bool Lia.
From stdpp Require Import base list.
From stdpp Require Import gmap strings.

Open Scope string_scope.
Open Scope Z_scope.

(** ** Types of the imported packages *)

Module time.
Definition Duration : Type := Z.
Definition Nanosecond : Duration := 1.
Definition Second : Duration := 1000000000.
End time.

Module metav1.
Module Duration.
(** [metav1.Duration] wraps a [time.Duration] in a struct. *)
Record t : Type := mk { Duration : time.Duration }.
End Duration.
End metav1.

Module configv1.
(** [configv1.LeaderElection]: every field is a plain value, there is
    no pointer, slice or map inside. *)
Record LeaderElection : Type := mkLeaderElection {
    Disable : bool;
    Namespace : string;
    Name : string;
    LeaseDuration : metav1.Duration.t;
    RenewDeadline : metav1.Duration.t;
    RetryPeriod : metav1.Duration.t
  }.

(** The zero value [LeaderElection{}]. *)
Definition LeaderElection_zero : LeaderElection :=
    mkLeaderElection false "" "" (metav1.Duration.mk 0) (metav1.Duration.mk 0)
      (metav1.Duration.mk 0).

(** Field assignments [c.F = v]. *)
Definition set_Namespace (v : string) (c : LeaderElection) : LeaderElection :=
    mkLeaderElection (Disable c) v (Name c) (LeaseDuration c) (RenewDeadline c)
      (RetryPeriod c).
Definition set_Name (v : string) (c : LeaderElection) : LeaderElection :=
    mkLeaderElection (Disable c) (Namespace c) v (LeaseDuration c) (RenewDeadline c)
      (RetryPeriod c).
Definition set_LeaseDuration (v : time.Duration) (c : LeaderElection) : LeaderElection :=
    mkLeaderElection (Disable c) (Namespace c) (Name c) (metav1.Duration.mk v)
      (RenewDeadline c) (RetryPeriod c).
Definition set_RenewDeadline (v : time.Duration) (c : LeaderElection) : LeaderElection :=
    mkLeaderElection (Disable c) (Namespace c) (Name c) (LeaseDuration c)
      (metav1.Duration.mk v) (RetryPeriod c).
Definition set_RetryPeriod (v : time.Duration) (c : LeaderElection) : LeaderElection :=
    mkLeaderElection (Disable c) (Namespace c) (Name c) (LeaseDuration c)
      (RenewDeadline c) (metav1.Duration.mk v).
End configv1.

(** ** Errors

    A Go [error] is either built in this package by [fmt.Errorf], or it
    is handed back by a callee.  The two never coincide as values (each
    [fmt.Errorf] allocates), whatever their messages are. *)

Inductive error : Type :=
| fmt_Errorf (msg : string)
| callee_error (msg : string).

(** ** The owning process, as seen by a callback

    [klog] collects the warnings written so far and [exited] is the exit
    status once the process has terminated. *)

Record Proc : Type := mkProc {
  klog : list string;
  exited : option Z
}.

(** A Go [func()] run inside the process.  A terminated process runs
    nothing: every primitive below leaves it as it is. *)
Definition Func : Type := Proc -> Proc.

Definition os_Exit (code : Z) : Func := fun p =>
  match exited p with
  | Some _ => p
  | None => mkProc (klog p) (Some code)
  end.

Definition klog_Warningf (msg : string) : Func := fun p =>
  match exited p with
  | Some _ => p
  | None => mkProc (klog p ++ [msg]) None
  end.

(** [defer d; body]: [d] runs when the function body has finished. *)
Definition defer (d body : Func) : Func := fun p => d (body p).

(** One scheduling step of the process: code only runs while the process
    is alive. *)
Definition run (f : Func) (p : Proc) : Proc :=
  match exited p with
  | Some _ => p
  | None => f p
  end.

Module corev1.
Record EventSource : Type := mkEventSource { Component : string }.
End corev1.

Module record.
(** What [eventBroadcaster.NewRecorder(scheme, source)] returns, known by
    the source it records for. *)
Record EventRecorder : Type := mkEventRecorder { Source : corev1.EventSource }.
End record.

Module resourcelock.
Definition ConfigMapsResourceLock : string := "configmaps".

Record ResourceLockConfig : Type := mkResourceLockConfig {
    Identity : string;
    EventRecorder : record.EventRecorder
  }.
End resourcelock.

Module leaderelection.
Record LeaderCallbacks : Type := mkLeaderCallbacks {
    OnStartedLeading : option Func;
    OnStoppedLeading : option Func;
    OnNewLeader : option (string -> Func)
  }.

(** [leaderelection.LeaderElectionConfig] over the type [LockT] of locks,
    with the fields that the package sets; it leaves the others
    ([WatchDog], [Name]) at their zero value.  A nil [Lock] is [None]. *)
Record LeaderElectionConfig (LockT : Type) : Type := mkLeaderElectionConfig {
    Lock : option LockT;
    LeaseDuration : time.Duration;
    RenewDeadline : time.Duration;
    RetryPeriod : time.Duration;
    Callbacks : LeaderCallbacks;
    ReleaseOnCancel : bool
  }.
Arguments mkLeaderElectionConfig {LockT}.
Arguments Lock {LockT}.
Arguments LeaseDuration {LockT}.
Arguments RenewDeadline {LockT}.
Arguments RetryPeriod {LockT}.
Arguments Callbacks {LockT}.
Arguments ReleaseOnCancel {LockT}.

(** The zero value [LeaderElectionConfig{}]. *)
Definition LeaderElectionConfig_zero {LockT : Type} : LeaderElectionConfig LockT :=
    mkLeaderElectionConfig None 0 0 0 (mkLeaderCallbacks None None None) false.
End leaderelection.

(** ** The world the package runs in *)

(** Calls that leave the package, in the order they are made. *)
Inductive Call : Type :=
| kubernetes_NewForConfig_call
| os_Hostname_call
| uuid_NewUUID_call
| ioutil_ReadFile_call (filename : string)
| record_NewBroadcaster_call
| StartLogging_call
| StartRecordingToSink_call
| NewRecorder_call (source : corev1.EventSource)
| resourcelock_New_call (lockType ns name : string)
    (rlc : resourcelock.ResourceLockConfig).

(** Addresses of [LeaderElection] cells. *)
Definition ptr : Type := nat.

Record World : Type := mkWorld {
  cells : list configv1.LeaderElection;
  trace : list Call
}.

(** Computations that read and write the world. *)
Definition M (A : Type) : Type := World -> A * World.

Definition pure {A : Type} (a : A) : M A := fun w => (a, w).

Definition bind {A B : Type} (c : M A) (k : A -> M B) : M B := fun w =>
  let (a, w') := c w in k a w'.

Declare Scope go_scope.
Delimit Scope go_scope with go.
Notation "x <- c ;; k" := (bind c (fun x => k))
  (at level 100, c at next level, right associativity) : go_scope.
Notation "c ;; k" := (bind c (fun _ => k))
  (at level 100, right associativity) : go_scope.

Definition skip : M unit := pure tt.

Definition emit (c : Call) : M unit := fun w =>
  (tt, mkWorld (cells w) (trace w ++ [c])).

(** [new(LeaderElection)] initialised with [v], also a fresh local
    variable holding [v]. *)
Definition new (v : configv1.LeaderElection) : M ptr := fun w =>
  (length (cells w), mkWorld (cells w ++ [v]) (trace w)).

(** [*p].  Every address the package dereferences comes from [new], so
    the cell exists; an address outside the store would read as the zero
    value here. *)
Definition load (p : ptr) : M configv1.LeaderElection := fun w =>
  (default configv1.LeaderElection_zero (cells w !! p), w).

(** [*p = v]; outside the store it would write nothing. *)
Definition store (p : ptr) (v : configv1.LeaderElection) : M unit := fun w =>
  (tt, mkWorld (<[p:=v]> (cells w)) (trace w)).

(** [p.F], for a projection [F]. *)
Definition field {A : Type} (p : ptr) (F : configv1.LeaderElection -> A) : M A :=
  (v <- load p ;; pure (F v))%go.

(** [p.F = v], for a field assignment [set_F v]. *)
Definition assign (p : ptr)
    (set_F : configv1.LeaderElection -> configv1.LeaderElection) : M unit :=
  (v <- load p ;; store p (set_F v))%go.

(** The generated [func (in *LeaderElection) DeepCopy() *LeaderElection]:
    [out := new(LeaderElection); *out = *in; return out]. *)
Definition DeepCopy (in_ : ptr) : M ptr :=
  (v <- load in_ ;; new v)%go.

(** [len(s)] of a Go string. *)
Definition len (s : string) : Z := Z.of_nat (String.length s).

(** ** Package leaderelection *)

Section Package.

(** [*rest.Config], [*kubernetes.Clientset] and [resourcelock.Interface]
    are opaque to this package. *)
Variables RestConfig Clientset Lock : Type.

(** The answers of the callees.  A failing callee answers [inr msg]. *)
Record Env : Type := mkEnv {
  kubernetes_NewForConfig : RestConfig -> Clientset + string;
  os_Hostname : string + string;
  uuid_NewUUID : string;
  ioutil_ReadFile : string -> string + string;
  strings_TrimSpace : string -> string;
  resourcelock_New :
    string -> string -> string -> Clientset ->
    resourcelock.ResourceLockConfig -> Lock + string
}.

Variable env : Env.

Open Scope go_scope.

(** Lines 32-40 of [ToConfigMapLeaderElection]: the holder identity. *)
Definition holderIdentity (identity : string) : M string :=
  if len identity =? 0 then
    emit os_Hostname_call ;;
    match os_Hostname env with
    | inr _ =>
        (* on errors, make sure we're unique *)
        emit uuid_NewUUID_call ;;
        pure (uuid_NewUUID env)
    | inl hostname =>
        (* add a uniquifier so that two processes on the same host don't
           accidentally both become active *)
        emit uuid_NewUUID_call ;;
        pure (hostname ++ "_" ++ uuid_NewUUID env)%string
    end
  else pure identity.

(** The [OnStoppedLeading] closure of lines 73-76. *)
Definition onStoppedLeading : Func :=
  defer (os_Exit 0) (klog_Warningf "leader election lost").

Definition ToConfigMapLeaderElection (clientConfig : RestConfig)
    (config : configv1.LeaderElection) (component identity : string)
    : M (leaderelection.LeaderElectionConfig Lock * option error) :=
  emit kubernetes_NewForConfig_call ;;
  match kubernetes_NewForConfig env clientConfig with
  | inr err => pure (leaderelection.LeaderElectionConfig_zero, Some (callee_error err))
  | inl kubeClient =>
      identity <- holderIdentity identity ;;
      if len (configv1.Namespace config) =? 0 then
        pure (leaderelection.LeaderElectionConfig_zero,
              Some (fmt_Errorf "namespace may not be empty"))
      else if len (configv1.Name config) =? 0 then
        pure (leaderelection.LeaderElectionConfig_zero,
              Some (fmt_Errorf "name may not be empty"))
      else
        emit record_NewBroadcaster_call ;;
        emit StartLogging_call ;;
        emit StartRecordingToSink_call ;;
        let source := corev1.mkEventSource component in
        emit (NewRecorder_call source) ;;
        let eventRecorder := record.mkEventRecorder source in
        let rlc := resourcelock.mkResourceLockConfig identity eventRecorder in
        emit (resourcelock_New_call resourcelock.ConfigMapsResourceLock
                (configv1.Namespace config) (configv1.Name config) rlc) ;;
        match resourcelock_New env resourcelock.ConfigMapsResourceLock
                (configv1.Namespace config) (configv1.Name config) kubeClient rlc with
        | inr err =>
            pure (leaderelection.LeaderElectionConfig_zero, Some (callee_error err))
        | inl rl =>
            pure (leaderelection.mkLeaderElectionConfig
                    (Some rl)
                    (metav1.Duration.Duration (configv1.LeaseDuration config))
                    (metav1.Duration.Duration (configv1.RenewDeadline config))
                    (metav1.Duration.Duration (configv1.RetryPeriod config))
                    (leaderelection.mkLeaderCallbacks None (Some onStoppedLeading) None)
                    true,
                  None)
        end
  end.

(** The service-account file read at line 115. *)
Definition serviceAccountNamespaceFile : string :=
  "/var/run/secrets/kubernetes.io/serviceaccount/namespace".

Definition LeaderElectionDefaulting (config : configv1.LeaderElection)
    (defaultNamespace defaultName : string) : M configv1.LeaderElection :=
  config <- new config ;;
  out <- DeepCopy config ;;
  v <- load out ;;
  ret <- new v ;;
  d <- field ret (fun r => metav1.Duration.Duration (configv1.LeaseDuration r)) ;;
  (if d =? 0 then assign ret (configv1.set_LeaseDuration (137 * time.Second))
   else skip) ;;
  d <- field ret (fun r => metav1.Duration.Duration (configv1.RenewDeadline r)) ;;
  (if d =? 0 then assign ret (configv1.set_RenewDeadline (107 * time.Second))
   else skip) ;;
  d <- field ret (fun r => metav1.Duration.Duration (configv1.RetryPeriod r)) ;;
  (if d =? 0 then assign ret (configv1.set_RetryPeriod (26 * time.Second))
   else skip) ;;
  ns <- field ret configv1.Namespace ;;
  (if len ns =? 0 then
     if len defaultNamespace >? 0 then
       assign ret (configv1.set_Namespace defaultNamespace)
     else
       (* Fall back to the namespace associated with the service account
          token, if available *)
       emit (ioutil_ReadFile_call serviceAccountNamespaceFile) ;;
       match ioutil_ReadFile env serviceAccountNamespaceFile with
       | inl data =>
           let ns := strings_TrimSpace env data in
           if len ns >? 0 then assign ret (configv1.set_Namespace ns) else skip
       | inr _ => skip
       end
   else skip) ;;
  name <- field ret configv1.Name ;;
  (if len name =? 0 then assign ret (configv1.set_Name defaultName) else skip) ;;
  load ret.

Definition LeaderElectionSNOConfig (config : configv1.LeaderElection)
    : M configv1.LeaderElection :=
  config <- new config ;;
  out <- DeepCopy config ;;
  v <- load out ;;
  ret <- new v ;;
  assign ret (configv1.set_LeaseDuration (270 * time.Second)) ;;
  assign ret (configv1.set_RenewDeadline (240 * time.Second)) ;;
  assign ret (configv1.set_RetryPeriod (60 * time.Second)) ;;
  load ret.

(** The comment of lines 91-93: with retries every [retryPeriod], the last
    retry before [renewDeadline] and the kube-apiserver downtime that is
    tolerated. *)
Definition lastRetry (renewDeadline retryPeriod : time.Duration) : time.Duration :=
  (renewDeadline / retryPeriod) * retryPeriod.

Definition downtimeTolerance (renewDeadline retryPeriod : time.Duration)
    : time.Duration :=
  lastRetry renewDeadline retryPeriod - retryPeriod.

(** ** Closed forms of the two defaulting functions

    [defaulted] and [snoProfile] are the values of the local [ret] when
    the functions return; [namespaceReads] is what they add to the
    trace.  They are only used to state [LeaderElectionDefaulting_exec]
    and [LeaderElectionSNOConfig_exec] below. *)

Definition defaultTo (dflt : time.Duration) (d : metav1.Duration.t)
    : metav1.Duration.t :=
  if metav1.Duration.Duration d =? 0 then metav1.Duration.mk dflt else d.

Definition namespaceReads (config : configv1.LeaderElection)
    (defaultNamespace : string) : list Call :=
  if len (configv1.Namespace config) =? 0 then
    if len defaultNamespace >? 0 then []
    else [ioutil_ReadFile_call serviceAccountNamespaceFile]
  else [].

Definition defaulted (config : configv1.LeaderElection)
    (defaultNamespace defaultName : string) : configv1.LeaderElection :=
  configv1.mkLeaderElection
    (configv1.Disable config)
    (let ns := configv1.Namespace config in
     if len ns =? 0 then
       if len defaultNamespace >? 0 then defaultNamespace
       else match ioutil_ReadFile env serviceAccountNamespaceFile with
            | inl data =>
                if len (strings_TrimSpace env data) >? 0
                then strings_TrimSpace env data else ns
            | inr _ => ns
            end
     else ns)
    (if len (configv1.Name config) =? 0 then defaultName else configv1.Name config)
    (defaultTo (137 * time.Second) (configv1.LeaseDuration config))
    (defaultTo (107 * time.Second) (configv1.RenewDeadline config))
    (defaultTo (26 * time.Second) (configv1.RetryPeriod config)).

Definition snoProfile (config : configv1.LeaderElection) : configv1.LeaderElection :=
  configv1.mkLeaderElection
    (configv1.Disable config) (configv1.Namespace config) (configv1.Name config)
    (metav1.Duration.mk (270 * time.Second))
    (metav1.Duration.mk (240 * time.Second))
    (metav1.Duration.mk (60 * time.Second)).

(** The calls made by [holderIdentity]. *)
Definition identityCalls (identity : string) : list Call :=
  if len identity =? 0 then [os_Hostname_call; uuid_NewUUID_call] else [].

End Package.

Arguments mkEnv {RestConfig Clientset Lock}.
Arguments kubernetes_NewForConfig {RestConfig Clientset Lock}.
Arguments os_Hostname {RestConfig Clientset Lock}.
Arguments uuid_NewUUID {RestConfig Clientset Lock}.
Arguments ioutil_ReadFile {RestConfig Clientset Lock}.
Arguments strings_TrimSpace {RestConfig Clientset Lock}.
Arguments resourcelock_New {RestConfig Clientset Lock}.
Arguments holderIdentity {RestConfig Clientset Lock}.
Arguments ToConfigMapLeaderElection {RestConfig Clientset Lock}.
Arguments LeaderElectionDefaulting {RestConfig Clientset Lock}.
Arguments defaulted {RestConfig Clientset Lock}.

(** ** Concrete worlds

    A small environment on which the definitions can be run: the
    hostname, the service-account file and the outcome of client and
    lock construction are given; whitespace is trimmed for the ASCII
    white space characters only, which is what Go's [strings.TrimSpace]
    does on ASCII input. *)

Definition asciiSpace (c : ascii) : bool :=
  match c with
  | "009"%char | "010"%char | "011"%char | "012"%char | "013"%char | " "%char => true
  | _ => false
  end.

Fixpoint trimLeft (s : string) : string :=
  match s with
  | String c s' => if asciiSpace c then trimLeft s' else s
  | EmptyString => EmptyString
  end.

Fixpoint revAppend (acc s : string) : string :=
  match s with
  | String c s' => revAppend (String c acc) s'
  | EmptyString => acc
  end.

Definition trimAsciiSpace (s : string) : string :=
  revAppend "" (trimLeft (revAppend "" (trimLeft s))).

(** A lock is represented by what it was built from. *)
Definition exampleLock : Type := string * string * string * resourcelock.ResourceLockConfig.

Definition exampleEnv (client : unit + string) (hostname : string + string)
    (file : string + string) (lockError : option string) : Env unit unit exampleLock :=
  mkEnv
    (fun _ => client)
    hostname
    "9f0e2a6c-7c1b-4d0e-8a53-2f6d1b7e4c11"
    (fun filename =>
       if String.eqb filename serviceAccountNamespaceFile then file
       else inr "open: no such file or directory")
    trimAsciiSpace
    (fun lockType ns name _ rlc =>
       match lockError with
       | Some msg => inr msg
       | None => inl (lockType, ns, name, rlc)
       end).

(** Everything works: hostname [master-0], file [openshift-etcd]. *)
Definition goodEnv : Env unit unit exampleLock :=
  exampleEnv (inl tt) (inl "master-0")
    (inl (String "010"%char "  openshift-etcd" ++ String "010"%char "")%string) None.

(** As [goodEnv], but the hostname cannot be read. *)
Definition noHostnameEnv : Env unit unit exampleLock :=
  exampleEnv (inl tt) (inr "hostname: not available")
    (inl "openshift-etcd") None.

(** As [goodEnv], but the service-account file cannot be read. *)
Definition noFileEnv : Env unit unit exampleLock :=
  exampleEnv (inl tt) (inl "master-0") (inr "open: permission denied") None.

Definition emptyWorld : World := mkWorld [] [].

(** A configuration with every duration set by the user. *)
Definition explicitConfig : configv1.LeaderElection :=
  configv1.mkLeaderElection false "openshift-etcd" "etcd-lock"
    (metav1.Duration.mk (10 * time.Second))
    (metav1.Duration.mk (8 * time.Second))
    (metav1.Duration.mk (2 * time.Second)).

(** A caller's world: cell [0] holds the caller's configuration. *)
Definition callerWorld : World := mkWorld [explicitConfig] [].

(** ** Package staticpodfallback

    The controller that reports a static pod rolled back to an earlier
    revision.  A pod is its name and its annotations, a Go
    [map[string]string], here a finite map.  The apply-configuration
    builders have one optional field per pointer field of the Go struct;
    [WithX] sets the field. *)

Module operatorv1.
Inductive ConditionStatus : Type :=
| ConditionTrue
| ConditionFalse
| ConditionUnknown.
End operatorv1.

Module applyoperatorv1.
Record OperatorConditionApplyConfiguration : Type := mkOperatorCondition {
    Type_ : option string;
    Status : option operatorv1.ConditionStatus;
    Reason : option string;
    Message : option string
  }.

Definition OperatorCondition : OperatorConditionApplyConfiguration :=
  mkOperatorCondition None None None None.

Definition WithType (v : string) (b : OperatorConditionApplyConfiguration)
    : OperatorConditionApplyConfiguration :=
  mkOperatorCondition (Some v) (Status b) (Reason b) (Message b).

Definition WithStatus (v : operatorv1.ConditionStatus)
    (b : OperatorConditionApplyConfiguration) : OperatorConditionApplyConfiguration :=
  mkOperatorCondition (Type_ b) (Some v) (Reason b) (Message b).

Definition WithReason (v : string) (b : OperatorConditionApplyConfiguration)
    : OperatorConditionApplyConfiguration :=
  mkOperatorCondition (Type_ b) (Status b) (Some v) (Message b).

Definition WithMessage (v : string) (b : OperatorConditionApplyConfiguration)
    : OperatorConditionApplyConfiguration :=
  mkOperatorCondition (Type_ b) (Status b) (Reason b) (Some v).

(** Of [OperatorStatusApplyConfiguration] the controller only sets the
    conditions. *)
Record OperatorStatusApplyConfiguration : Type := mkOperatorStatus {
    Conditions : list OperatorConditionApplyConfiguration
  }.

Definition OperatorStatus : OperatorStatusApplyConfiguration := mkOperatorStatus [].

Definition WithConditions (c : OperatorConditionApplyConfiguration)
    (b : OperatorStatusApplyConfiguration) : OperatorStatusApplyConfiguration :=
  mkOperatorStatus (Conditions b ++ [c]).
End applyoperatorv1.

Module podv1.
(** The part of [corev1.Pod] that the controller reads. *)
Record Pod : Type := mkPod {
    Name : string;
    Annotations : gmap string string
  }.
End podv1.

Definition time_Minute : time.Duration := 60 * time.Second.

(** The line feed of ["%s\n%s"]. *)
Definition newline : string := String "010"%char "".

Section StaticPodFallback.

(** The annotation keys [annotations.FallbackForRevision],
    [annotations.FallbackReason] and [annotations.FallbackMessage] are
    constants of package [startupmonitor/annotations]. *)
Variables FallbackForRevision FallbackReason FallbackMessage : string.

(** [labels.Selector] with its method [Empty], the event recorder, and
    [factory.ControllerInstanceName]. *)
Variable Selector : Type.
Variable Selector_Empty : Selector -> bool.
Variable Recorder : Type.
Variable ControllerInstanceName : string -> string -> string.

(** Calls made by [sync], in order. *)
Inductive SyncCall : Type :=
| startupMonitorEnabledFn_call
| podLister_List_call (selector : Selector)
| ApplyOperatorStatus_call (fieldManager : string)
    (status : applyoperatorv1.OperatorStatusApplyConfiguration).

(** [operatorClient] stands for its method [ApplyOperatorStatus] and
    [podLister] for its method [List]; an error is its message. *)
Record staticPodFallbackConditionController : Type := mkStaticPodFallback {
  controllerInstanceName : string;
  operatorClient :
    string -> applyoperatorv1.OperatorStatusApplyConfiguration -> option string;
  podLabelSelector : Selector;
  podLister : Selector -> list podv1.Pod + string;
  startupMonitorEnabledFn : unit -> bool + string
}.

(** What [factory.New()...ToController(name, eventRecorder)] is given. *)
Record Controller : Type := mkController {
  WithSync : unit -> option error * list SyncCall;
  ResyncEvery : time.Duration;
  WithInformers : string;
  ToController : string * Recorder
}.

(** [fmt.Sprintf("a static pod %v was rolled back to revision %v due to %v", ...)] *)
Definition rolledBackMessage (name fallbackFor message : string) : string :=
  ("a static pod " ++ name ++ " was rolled back to revision " ++ fallbackFor
   ++ " due to " ++ message)%string.

(** The body of the loop of lines 90-111 on the two accumulators
    [conditionReason] and [conditionMessage]. *)
Definition syncPod (acc : string * string) (kasPod : podv1.Pod) : string * string :=
  let (conditionReason, conditionMessage) := acc in
  match podv1.Annotations kasPod !! FallbackForRevision with
  | Some fallbackFor =>
      let reason :=
        match podv1.Annotations kasPod !! FallbackReason with
        | Some s => s
        | None => "Unknown"
        end in
      let message :=
        match podv1.Annotations kasPod !! FallbackMessage with
        | Some s => s
        | None => "unknown"
        end in
      let message := rolledBackMessage (podv1.Name kasPod) fallbackFor message in
      let conditionMessage :=
        if len conditionMessage >? 0
        then (conditionMessage ++ newline ++ message)%string
        else message in
      let conditionReason :=
        if len conditionReason =? 0 then reason else conditionReason in
      (conditionReason, conditionMessage)
  | None => acc
  end.

(** Lines 88-120: the condition after the pods have been listed. *)
Definition degradedConditionFor
    (degradedCondition : applyoperatorv1.OperatorConditionApplyConfiguration)
    (kasPods : list podv1.Pod) : applyoperatorv1.OperatorConditionApplyConfiguration :=
  let (conditionReason, conditionMessage) := fold_left syncPod kasPods ("", "") in
  (* by default, the condition is in a non-degraded state *)
  let degradedCondition :=
    applyoperatorv1.WithStatus operatorv1.ConditionFalse degradedCondition in
  if (len conditionReason >? 0) || (len conditionMessage >? 0) then
    applyoperatorv1.WithStatus operatorv1.ConditionTrue
      (applyoperatorv1.WithReason conditionReason
         (applyoperatorv1.WithMessage conditionMessage degradedCondition))
  else degradedCondition.

(** The deferred function of lines 65-72, run when [sync] returns with
    the named result [err] and the last value of [degradedCondition]. *)
Definition syncDeferred (fd : staticPodFallbackConditionController)
    (degradedCondition : applyoperatorv1.OperatorConditionApplyConfiguration)
    (status : applyoperatorv1.OperatorStatusApplyConfiguration)
    (err : option error) : option error * list SyncCall :=
  match err with
  | None =>
      let status := applyoperatorv1.WithConditions degradedCondition status in
      (match operatorClient fd (controllerInstanceName fd) status with
       | Some applyError => Some (callee_error applyError)
       | None => None
       end,
       [ApplyOperatorStatus_call (controllerInstanceName fd) status])
  | Some _ => (err, [])
  end.

Definition sync (fd : staticPodFallbackConditionController)
    : option error * list SyncCall :=
  let degradedCondition :=
    applyoperatorv1.WithType "StaticPodFallbackRevisionDegraded"
      applyoperatorv1.OperatorCondition in
  let status := applyoperatorv1.OperatorStatus in
  let returning degradedCondition err calls :=
    let (err', applied) := syncDeferred fd degradedCondition status err in
    (err', (calls ++ applied)%list) in
  match startupMonitorEnabledFn fd tt with
  | inr err =>
      returning degradedCondition (Some (callee_error err))
        [startupMonitorEnabledFn_call]
  | inl false =>
      returning
        (applyoperatorv1.WithStatus operatorv1.ConditionFalse degradedCondition)
        None [startupMonitorEnabledFn_call]
  | inl true =>
      match podLister fd (podLabelSelector fd) with
      | inr err =>
          returning degradedCondition (Some (callee_error err))
            [startupMonitorEnabledFn_call; podLister_List_call (podLabelSelector fd)]
      | inl kasPods =>
          returning (degradedConditionFor degradedCondition kasPods) None
            [startupMonitorEnabledFn_call; podLister_List_call (podLabelSelector fd)]
      end
  end.

(** [kubeInformersForNamespaces] stands for the pod lister of the
    informers of a namespace. *)
Definition New (instanceName targetNamespace : string)
    (podLabelSelector : option Selector)
    (operatorClient :
       string -> applyoperatorv1.OperatorStatusApplyConfiguration -> option string)
    (kubeInformersForNamespaces : string -> Selector -> list podv1.Pod + string)
    (startupMonitorEnabledFn : unit -> bool + string)
    (eventRecorder : Recorder) : option Controller * option error :=
  match podLabelSelector with
  | None =>
      (None,
       Some (fmt_Errorf
               "StaticPodFallbackConditionController: missing required podLabelSelector"))
  | Some podLabelSelector =>
      if Selector_Empty podLabelSelector then
        (None,
         Some (fmt_Errorf
                 "StaticPodFallbackConditionController: podLabelSelector cannot be empty"))
      else
        let fd :=
          mkStaticPodFallback
            (ControllerInstanceName instanceName "StaticPodStateFallback")
            operatorClient
            podLabelSelector
            (kubeInformersForNamespaces targetNamespace)
            startupMonitorEnabledFn in
        (Some (mkController (fun _ => sync fd) (6 * time_Minute) targetNamespace
                 (controllerInstanceName fd, eventRecorder)),
         None)
  end.

(** Closed forms used to state what the loop computes: the pods that
    carry the fallback annotation, their reasons and their messages. *)
Definition isFallback (kasPod : podv1.Pod) : bool :=
  match podv1.Annotations kasPod !! FallbackForRevision with
  | Some _ => true
  | None => false
  end.

Definition reasonOf (kasPod : podv1.Pod) : string :=
  default "Unknown" (podv1.Annotations kasPod !! FallbackReason).

Definition messageOf (kasPod : podv1.Pod) : string :=
  rolledBackMessage (podv1.Name kasPod)
    (default "" (podv1.Annotations kasPod !! FallbackForRevision))
    (default "unknown" (podv1.Annotations kasPod !! FallbackMessage)).

Fixpoint firstNonEmpty (l : list string) : string :=
  match l with
  | [] => ""
  | s :: l' => if len s =? 0 then firstNonEmpty l' else s
  end.

End StaticPodFallback.

Arguments mkStaticPodFallback {Selector}.
Arguments controllerInstanceName {Selector}.
Arguments operatorClient {Selector}.
Arguments podLabelSelector {Selector}.
Arguments podLister {Selector}.
Arguments startupMonitorEnabledFn {Selector}.
Arguments startupMonitorEnabledFn_call {Selector}.
Arguments podLister_List_call {Selector}.
Arguments ApplyOperatorStatus_call {Selector}.
Arguments syncDeferred {Selector}.
Arguments sync FallbackForRevision FallbackReason FallbackMessage {Selector}.
Arguments New FallbackForRevision FallbackReason FallbackMessage {Selector}
  Selector_Empty {Recorder}.
Arguments mkController {Selector Recorder}.
Arguments WithSync {Selector Recorder}.
Arguments ResyncEvery {Selector Recorder}.
Arguments WithInformers {Selector Recorder}.
Arguments ToController {Selector Recorder}.

(** Annotation keys and pods to run the controller on. *)
Definition fallbackForRevisionKey : string :=
  "startup-monitor.static-pods.openshift.io/fallback-for-revision".
Definition fallbackReasonKey : string :=
  "startup-monitor.static-pods.openshift.io/fallback-reason".
Definition fallbackMessageKey : string :=
  "startup-monitor.static-pods.openshift.io/fallback-message".

Definition healthyPod : podv1.Pod :=
  podv1.mkPod "kube-apiserver-master-0" (<["revision" := "7"]> ∅).

Definition rolledBackPod : podv1.Pod :=
  podv1.mkPod "kube-apiserver-master-1"
    (<[fallbackForRevisionKey := "8"]>
       (<[fallbackReasonKey := "NotReady"]>
          (<[fallbackMessageKey := "readyz timed out"]> ∅))).

Definition bareRolledBackPod : podv1.Pod :=
  podv1.mkPod "kube-apiserver-master-2" (<[fallbackForRevisionKey := "9"]> ∅).

(** A controller over string selectors whose lister answers [pods]. *)
Definition exampleController (enabled : bool + string)
    (pods : list podv1.Pod + string) (applyError : option string)
    : staticPodFallbackConditionController string :=
  mkStaticPodFallback "kube-apiserver-StaticPodStateFallback"
    (fun _ _ => applyError) "app=kube-apiserver" (fun _ => pods) (fun _ => enabled).

(** A second process on the host of [goodEnv], with a UUID of its own. *)
Definition otherProcessEnv : Env unit unit exampleLock :=
  mkEnv (fun _ => inl tt) (inl "master-0")
    "1b4e28ba-2fa1-11d2-883f-0016d3cca427"
    (fun _ => inr "open: no such file or directory")
    trimAsciiSpace
    (fun lockType ns name _ rlc => inl (lockType, ns, name, rlc)).

(** As [goodEnv], but no client can be built. *)
Definition brokenClientEnv : Env unit unit exampleLock :=
  exampleEnv (inr "invalid configuration: no server found") (inl "master-0")
    (inl "openshift-etcd") None.

(** ** Package clusterstatus *)

Definition infraResourceName : string := "cluster".

(** What a Go call gives back to its caller: a value, or a panic. *)
Inductive outcome (A : Type) : Type :=
| returned (a : A)
| panicked (err : error).
Arguments returned {A}.
Arguments panicked {A}.

Section ClusterStatus.

(** [*rest.Config], the config client and [configv1.InfrastructureStatus]
    are opaque; [Infrastructure] is known by its [Status]. *)
Variables InfraRestConfig InfraClient InfrastructureStatus : Type.

Record Infrastructure : Type := mkInfrastructure {
  Infrastructure_Status : InfrastructureStatus
}.

(** [openshiftcorev1.NewForConfig] and [client.Infrastructures().Get]. *)
Variable openshiftcorev1_NewForConfig : InfraRestConfig -> InfraClient + string.
Variable Infrastructures_Get : InfraClient -> string -> Infrastructure + string.

(** A [*configv1.InfrastructureStatus] is [None] when nil. *)
Definition GetClusterStatus (restClient : InfraRestConfig)
    : option InfrastructureStatus * option error :=
  match openshiftcorev1_NewForConfig restClient with
  | inr err => (None, Some (callee_error err))
  | inl client =>
      match Infrastructures_Get client infraResourceName with
      | inr err => (None, Some (callee_error err))
      | inl infra => (Some (Infrastructure_Status infra), None)
      end
  end.

Definition GetClusterStatusOrDie (restClient : InfraRestConfig)
    : outcome (option InfrastructureStatus) :=
  let (infra, err) := GetClusterStatus restClient in
  match err with
  | Some err => panicked err
  | None => returned infra
  end.

End ClusterStatus.

Arguments mkInfrastructure {InfrastructureStatus}.
Arguments Infrastructure_Status {InfrastructureStatus}.
Arguments GetClusterStatus {InfraRestConfig InfraClient InfrastructureStatus}.
Arguments GetClusterStatusOrDie {InfraRestConfig InfraClient InfrastructureStatus}.

Section Properties.

Context {RestConfig Clientset Lock : Type}.
Variable env : Env RestConfig Clientset Lock.

(** ** Running the store operations *)

Lemma len_0 (s : string) : len s = 0 <-> s = "".
Proof.
  unfold len. destruct s; cbn; split; intro H; try reflexivity; try discriminate; lia.
Qed.

Lemma len_eqb_0 (s : string) : (len s =? 0) = true <-> s = "".
Proof. rewrite Z.eqb_eq. apply len_0. Qed.

Lemma len_gtb_0 (s : string) : (len s >? 0) = negb (len s =? 0).
Proof.
  unfold len. destruct s; cbn; [reflexivity|].
  rewrite Z.gtb_ltb. reflexivity.
Qed.

Lemma load_last h r t :
  load (length h) (mkWorld (h ++ [r]) t) = (r, mkWorld (h ++ [r]) t).
Proof.
  unfold load; cbn. now rewrite list_lookup_middle.
Qed.

Lemma field_last {A : Type} (F : configv1.LeaderElection -> A) h r t :
  field (length h) F (mkWorld (h ++ [r]) t) = (F r, mkWorld (h ++ [r]) t).
Proof.
  unfold field, bind. now rewrite load_last.
Qed.

Lemma assign_last f h r t :
  assign (length h) f (mkWorld (h ++ [r]) t) = (tt, mkWorld (h ++ [f r]) t).
Proof.
  unfold assign, bind. rewrite load_last. unfold store; cbn.
  do 2 f_equal.
  replace (length h) with (length h + 0)%nat by lia.
  now rewrite insert_app_r.
Qed.

(** Runs the straight-line part of a computation on a world whose last
    cell is the variable being read and written. *)
Ltac exec :=
  repeat (unfold bind, pure, skip, new, DeepCopy, emit;
          cbn [cells trace fst snd];
          rewrite ?load_last, ?field_last, ?assign_last).

Ltac fields :=
  cbn [configv1.Disable configv1.Namespace configv1.Name
       configv1.LeaseDuration configv1.RenewDeadline configv1.RetryPeriod
       configv1.set_LeaseDuration configv1.set_RenewDeadline
       configv1.set_RetryPeriod configv1.set_Namespace configv1.set_Name
       metav1.Duration.Duration].

(** Splits on the test the left-hand side is stuck on. *)
Ltac branch :=
  match goal with
  | |- ?lhs = _ =>
      match lhs with
      | context [if ?b then _ else _] => destruct b
      | context [match ?x with inl _ => _ | inr _ => _ end] => destruct x
      end
  end.

Lemma LeaderElectionDefaulting_exec config defaultNamespace defaultName w :
  LeaderElectionDefaulting env config defaultNamespace defaultName w =
  (defaulted env config defaultNamespace defaultName,
   mkWorld
     (cells w ++ [config; config; defaulted env config defaultNamespace defaultName])
     (trace w ++ namespaceReads config defaultNamespace)).
Proof.
  destruct w as [h t], config as [dis ns nm [ld] [rd] [rp]].
  unfold LeaderElectionDefaulting, defaulted, namespaceReads, defaultTo.
  fields.
  repeat (exec; fields; try branch).
  all: unfold configv1.set_Name, configv1.set_Namespace, configv1.set_RetryPeriod,
         configv1.set_RenewDeadline, configv1.set_LeaseDuration;
       cbn; rewrite <- ?app_assoc, ?app_nil_r; reflexivity.
Qed.

Lemma LeaderElectionSNOConfig_exec config w :
  LeaderElectionSNOConfig config w =
  (snoProfile config,
   mkWorld (cells w ++ [config; config; snoProfile config]) (trace w)).
Proof.
  destruct w as [h t].
  unfold LeaderElectionSNOConfig, snoProfile.
  exec. cbn. rewrite <- !app_assoc. reflexivity.
Qed.

Lemma holderIdentity_exec identity w :
  holderIdentity env identity w =
  (if len identity =? 0 then
     match os_Hostname env with
     | inl hostname => (hostname ++ "_" ++ uuid_NewUUID env)%string
     | inr _ => uuid_NewUUID env
     end
   else identity,
   mkWorld (cells w) (trace w ++ identityCalls identity)).
Proof.
  destruct w as [h t].
  unfold holderIdentity, identityCalls.
  destruct (len identity =? 0); [destruct (os_Hostname env)|];
    exec; rewrite <- ?app_assoc, ?app_nil_r; reflexivity.
Qed.

(** Runs [ToConfigMapLeaderElection] up to the next test. *)
Ltac exec_constructor :=
  unfold ToConfigMapLeaderElection;
  repeat (exec; rewrite ?holderIdentity_exec).

(** The constructor fails with one of the two validation errors as soon
    as the client exists and the namespace or the name is empty, before
    any broadcaster or lock is set up. *)
Lemma ToConfigMapLeaderElection_invalid clientConfig config component identity w kubeClient :
  kubernetes_NewForConfig env clientConfig = inl kubeClient ->
  configv1.Namespace config = "" \/ configv1.Name config = "" ->
  ToConfigMapLeaderElection env clientConfig config component identity w =
  (leaderelection.LeaderElectionConfig_zero,
   Some (fmt_Errorf (if len (configv1.Namespace config) =? 0
                     then "namespace may not be empty"
                     else "name may not be empty")),
   mkWorld (cells w)
     (trace w ++ kubernetes_NewForConfig_call :: identityCalls identity)).
Proof.
  intros Hclient Hempty. destruct w as [h t].
  exec_constructor. rewrite Hclient. exec_constructor.
  destruct (len (configv1.Namespace config) =? 0) eqn:Hns.
  - exec. now rewrite <- app_assoc.
  - destruct Hempty as [Hempty|Hempty].
    + apply len_eqb_0 in Hempty. congruence.
    + apply len_eqb_0 in Hempty. rewrite Hempty. exec. now rewrite <- app_assoc.
Qed.

(** What a successful call returns. *)
Lemma ToConfigMapLeaderElection_ok clientConfig config component identity w cfg :
  fst (ToConfigMapLeaderElection env clientConfig config component identity w)
    = (cfg, None) ->
  exists kubeClient rl,
    kubernetes_NewForConfig env clientConfig = inl kubeClient /\
    configv1.Namespace config <> "" /\ configv1.Name config <> "" /\
    resourcelock_New env resourcelock.ConfigMapsResourceLock
      (configv1.Namespace config) (configv1.Name config) kubeClient
      (resourcelock.mkResourceLockConfig
         (fst (holderIdentity env identity
                 (mkWorld (cells w) (trace w ++ [kubernetes_NewForConfig_call]))))
         (record.mkEventRecorder (corev1.mkEventSource component))) = inl rl /\
    cfg = leaderelection.mkLeaderElectionConfig
            (Some rl)
            (metav1.Duration.Duration (configv1.LeaseDuration config))
            (metav1.Duration.Duration (configv1.RenewDeadline config))
            (metav1.Duration.Duration (configv1.RetryPeriod config))
            (leaderelection.mkLeaderCallbacks None (Some onStoppedLeading) None)
            true.
Proof.
  destruct w as [h t]. exec_constructor.
  destruct (kubernetes_NewForConfig env clientConfig) as [kubeClient|e] eqn:Hclient;
    exec_constructor; [|discriminate].
  destruct (len (configv1.Namespace config) =? 0) eqn:Hns; exec; [discriminate|].
  destruct (len (configv1.Name config) =? 0) eqn:Hname; exec; [discriminate|].
  match goal with
  | |- context [resourcelock_New ?e ?a ?b ?c ?d ?r] =>
      destruct (resourcelock_New e a b c d r) as [rl|e'] eqn:Hlock
  end; exec; [|discriminate].
  intros [= <-]. exists kubeClient, rl. repeat split; try assumption.
  - intros H. apply len_eqb_0 in H. congruence.
  - intros H. apply len_eqb_0 in H. congruence.
Qed.

(** With a client and a non-empty namespace and name, the outcome is that
    of the lock construction. *)
Lemma ToConfigMapLeaderElection_valid clientConfig config component identity w kubeClient :
  kubernetes_NewForConfig env clientConfig = inl kubeClient ->
  configv1.Namespace config <> "" ->
  configv1.Name config <> "" ->
  fst (ToConfigMapLeaderElection env clientConfig config component identity w) =
  match resourcelock_New env resourcelock.ConfigMapsResourceLock
          (configv1.Namespace config) (configv1.Name config) kubeClient
          (resourcelock.mkResourceLockConfig
             (fst (holderIdentity env identity
                     (mkWorld (cells w) (trace w ++ [kubernetes_NewForConfig_call]))))
             (record.mkEventRecorder (corev1.mkEventSource component))) with
  | inl rl =>
      (leaderelection.mkLeaderElectionConfig
         (Some rl)
         (metav1.Duration.Duration (configv1.LeaseDuration config))
         (metav1.Duration.Duration (configv1.RenewDeadline config))
         (metav1.Duration.Duration (configv1.RetryPeriod config))
         (leaderelection.mkLeaderCallbacks None (Some onStoppedLeading) None)
         true,
       None)
  | inr e => (leaderelection.LeaderElectionConfig_zero, Some (callee_error e))
  end.
Proof.
  intros Hclient Hns Hname. destruct w as [h t].
  exec_constructor. rewrite Hclient. exec_constructor.
  destruct (len (configv1.Namespace config) =? 0) eqn:Ens.
  { apply len_eqb_0 in Ens. contradiction. }
  destruct (len (configv1.Name config) =? 0) eqn:Ename.
  { apply len_eqb_0 in Ename. contradiction. }
  exec.
  match goal with
  | |- context [resourcelock_New ?e ?a ?b ?c ?d ?r] =>
      destruct (resourcelock_New e a b c d r)
  end; reflexivity.
Qed.

(** ** Defaulting *)

(** C1, as amended.  [LeaderElectionDefaulting] fills exactly the duration
    fields that are zero in its input (with 137s, 107s and 26s) and
    returns every non-zero duration field as it was given;
    [LeaderElectionSNOConfig] sets the three fields to 270s, 240s and 60s
    whatever the input holds. *)
Theorem defaulting_fills_unset_durations
    (config : configv1.LeaderElection) (defaultNamespace defaultName : string)
    (w : World) :
  let r := fst (LeaderElectionDefaulting env config defaultNamespace defaultName w) in
  let s := fst (LeaderElectionSNOConfig config w) in
  configv1.LeaseDuration r =
    (if metav1.Duration.Duration (configv1.LeaseDuration config) =? 0
     then metav1.Duration.mk (137 * time.Second)
     else configv1.LeaseDuration config) /\
  configv1.RenewDeadline r =
    (if metav1.Duration.Duration (configv1.RenewDeadline config) =? 0
     then metav1.Duration.mk (107 * time.Second)
     else configv1.RenewDeadline config) /\
  configv1.RetryPeriod r =
    (if metav1.Duration.Duration (configv1.RetryPeriod config) =? 0
     then metav1.Duration.mk (26 * time.Second)
     else configv1.RetryPeriod config) /\
  configv1.LeaseDuration s = metav1.Duration.mk (270 * time.Second) /\
  configv1.RenewDeadline s = metav1.Duration.mk (240 * time.Second) /\
  configv1.RetryPeriod s = metav1.Duration.mk (60 * time.Second).
Proof.
  cbv zeta.
  rewrite LeaderElectionDefaulting_exec, LeaderElectionSNOConfig_exec.
  cbn [fst]. unfold defaulted, snoProfile, defaultTo. fields.
  repeat split; reflexivity.
Qed.

(** C2.  When the three duration fields of the input are zero, the
    configurations returned by both defaulting functions have
    [0 < RetryPeriod < RenewDeadline < LeaseDuration]. *)
Theorem defaulted_durations_ordered
    (config : configv1.LeaderElection) (defaultNamespace defaultName : string)
    (w : World)
    (HLeaseDuration : metav1.Duration.Duration (configv1.LeaseDuration config) = 0)
    (HRenewDeadline : metav1.Duration.Duration (configv1.RenewDeadline config) = 0)
    (HRetryPeriod : metav1.Duration.Duration (configv1.RetryPeriod config) = 0) :
  let r := fst (LeaderElectionDefaulting env config defaultNamespace defaultName w) in
  let s := fst (LeaderElectionSNOConfig config w) in
  (0 < metav1.Duration.Duration (configv1.RetryPeriod r) /\
   metav1.Duration.Duration (configv1.RetryPeriod r)
     < metav1.Duration.Duration (configv1.RenewDeadline r) /\
   metav1.Duration.Duration (configv1.RenewDeadline r)
     < metav1.Duration.Duration (configv1.LeaseDuration r)) /\
  (0 < metav1.Duration.Duration (configv1.RetryPeriod s) /\
   metav1.Duration.Duration (configv1.RetryPeriod s)
     < metav1.Duration.Duration (configv1.RenewDeadline s) /\
   metav1.Duration.Duration (configv1.RenewDeadline s)
     < metav1.Duration.Duration (configv1.LeaseDuration s)).
Proof.
  cbv zeta.
  rewrite LeaderElectionDefaulting_exec, LeaderElectionSNOConfig_exec.
  cbn [fst]. unfold defaulted, snoProfile, defaultTo. fields.
  rewrite HLeaseDuration, HRenewDeadline, HRetryPeriod.
  cbn. unfold time.Second. lia.
Qed.

(** C3.  For an input without durations the standard profile is
    137s/107s/26s and its downtime tolerance
    [floor(RenewDeadline/RetryPeriod)*RetryPeriod - RetryPeriod] is 78s;
    the single-node profile is 270s/240s/60s and its tolerance is 180s. *)
Theorem defaulted_downtime_tolerance
    (config : configv1.LeaderElection) (defaultNamespace defaultName : string)
    (w : World)
    (HLeaseDuration : metav1.Duration.Duration (configv1.LeaseDuration config) = 0)
    (HRenewDeadline : metav1.Duration.Duration (configv1.RenewDeadline config) = 0)
    (HRetryPeriod : metav1.Duration.Duration (configv1.RetryPeriod config) = 0) :
  let r := fst (LeaderElectionDefaulting env config defaultNamespace defaultName w) in
  let s := fst (LeaderElectionSNOConfig config w) in
  (metav1.Duration.Duration (configv1.LeaseDuration r) = 137 * time.Second /\
   metav1.Duration.Duration (configv1.RenewDeadline r) = 107 * time.Second /\
   metav1.Duration.Duration (configv1.RetryPeriod r) = 26 * time.Second /\
   downtimeTolerance (metav1.Duration.Duration (configv1.RenewDeadline r))
     (metav1.Duration.Duration (configv1.RetryPeriod r)) = 78 * time.Second) /\
  (metav1.Duration.Duration (configv1.LeaseDuration s) = 270 * time.Second /\
   metav1.Duration.Duration (configv1.RenewDeadline s) = 240 * time.Second /\
   metav1.Duration.Duration (configv1.RetryPeriod s) = 60 * time.Second /\
   downtimeTolerance (metav1.Duration.Duration (configv1.RenewDeadline s))
     (metav1.Duration.Duration (configv1.RetryPeriod s)) = 180 * time.Second).
Proof.
  cbv zeta.
  rewrite LeaderElectionDefaulting_exec, LeaderElectionSNOConfig_exec.
  cbn [fst]. unfold defaulted, snoProfile, defaultTo. fields.
  rewrite HLeaseDuration, HRenewDeadline, HRetryPeriod.
  cbn [Z.eqb metav1.Duration.Duration].
  repeat split; reflexivity.
Qed.

(** C4.  The namespace returned by [LeaderElectionDefaulting] is the
    input's own when that is not empty; else the fallback argument when
    that is not empty; else the trimmed contents of the service-account
    namespace file when the file can be read and they are not empty;
    else it is empty. *)
Theorem namespace_resolution_precedence
    (config : configv1.LeaderElection) (defaultNamespace defaultName : string)
    (w : World) :
  configv1.Namespace
    (fst (LeaderElectionDefaulting env config defaultNamespace defaultName w)) =
  if negb (len (configv1.Namespace config) =? 0) then configv1.Namespace config
  else if negb (len defaultNamespace =? 0) then defaultNamespace
  else match ioutil_ReadFile env serviceAccountNamespaceFile with
       | inl data =>
           if negb (len (strings_TrimSpace env data) =? 0)
           then strings_TrimSpace env data
           else ""
       | inr _ => ""
       end.
Proof.
  rewrite LeaderElectionDefaulting_exec. cbn [fst]. unfold defaulted. fields.
  rewrite !len_gtb_0.
  destruct (len (configv1.Namespace config) =? 0) eqn:Hns; cbn [negb]; [|reflexivity].
  apply len_eqb_0 in Hns. rewrite Hns.
  destruct (len defaultNamespace =? 0); cbn [negb]; [|reflexivity].
  destruct (ioutil_ReadFile env serviceAccountNamespaceFile) as [data|e]; [|reflexivity].
  rewrite len_gtb_0. reflexivity.
Qed.

(** C8.  Both defaulting functions leave every cell that existed before
    the call as it was, in particular a cell [a] of the caller that holds
    the argument; they work on cells of their own, and the parameter
    [config] itself still holds the argument when they return. *)
Theorem defaulting_does_not_mutate_input
    (config : configv1.LeaderElection) (defaultNamespace defaultName : string)
    (w : World) (a : ptr) (Hcaller : cells w !! a = Some config) :
  let w1 := snd (LeaderElectionDefaulting env config defaultNamespace defaultName w) in
  let w2 := snd (LeaderElectionSNOConfig config w) in
  (cells w1 !! a = Some config /\
   cells w `prefix_of` cells w1 /\
   cells w1 !! length (cells w) = Some config) /\
  (cells w2 !! a = Some config /\
   cells w `prefix_of` cells w2 /\
   cells w2 !! length (cells w) = Some config).
Proof.
  cbv zeta.
  rewrite LeaderElectionDefaulting_exec, LeaderElectionSNOConfig_exec.
  cbn [snd cells].
  repeat split.
  - now apply lookup_app_l_Some.
  - now eexists.
  - now rewrite list_lookup_middle.
  - now apply lookup_app_l_Some.
  - now eexists.
  - now rewrite list_lookup_middle.
Qed.

(** ** The constructor *)

Lemma append_nonempty (a b : string) (c : ascii) : (a ++ String c b)%string <> "".
Proof. destruct a; discriminate. Qed.

(** C5.  When the namespace or the name of the configuration is empty the
    constructor returns the empty [LeaderElectionConfig] and a non-nil
    error; once the client exists this error is the validation error and
    it is returned at once: only the client construction and the
    identity calls have been made, each once, and no broadcaster or lock
    was set up.  When both are non-empty no validation error is
    returned. *)
Theorem constructor_validates_namespace_and_name
    (clientConfig : RestConfig) (config : configv1.LeaderElection)
    (component identity : string) (w : World) :
  let result := ToConfigMapLeaderElection env clientConfig config component identity w in
  (configv1.Namespace config = "" \/ configv1.Name config = "" ->
   fst (fst result) = leaderelection.LeaderElectionConfig_zero /\
   snd (fst result) <> None /\
   forall kubeClient,
     kubernetes_NewForConfig env clientConfig = inl kubeClient ->
     snd (fst result) =
       Some (fmt_Errorf (if len (configv1.Namespace config) =? 0
                         then "namespace may not be empty"
                         else "name may not be empty")) /\
     trace (snd result) =
       (trace w ++ kubernetes_NewForConfig_call :: identityCalls identity)%list) /\
  (configv1.Namespace config <> "" -> configv1.Name config <> "" ->
   forall msg, snd (fst result) <> Some (fmt_Errorf msg)).
Proof.
  cbv zeta. split.
  - intros Hempty.
    destruct (kubernetes_NewForConfig env clientConfig) as [kubeClient|e] eqn:Hclient.
    + rewrite (ToConfigMapLeaderElection_invalid _ _ _ _ _ _ Hclient Hempty).
      cbn [fst snd trace]. repeat split; try discriminate.
      all: intros k [= <-]; reflexivity.
    + destruct w as [h t]. exec_constructor. rewrite Hclient. exec.
      repeat split; discriminate.
  - intros Hns Hname msg.
    destruct (kubernetes_NewForConfig env clientConfig) as [kubeClient|e] eqn:Hclient.
    + rewrite (ToConfigMapLeaderElection_valid _ _ _ _ _ _ Hclient Hns Hname).
      match goal with
      | |- context [resourcelock_New ?e ?a ?b ?c ?d ?r] =>
          destruct (resourcelock_New e a b c d r)
      end; discriminate.
    + destruct w as [h t]. exec_constructor. rewrite Hclient. exec. discriminate.
Qed.

(** C6.  For an empty [identity] argument the holder identity is
    [hostname + "_" + uuid] when the hostname can be read and the UUID
    alone when it cannot; it is not empty (the UUID generator never
    yields the empty string); and a hostname failure is not an error of
    the constructor: with a client and a non-empty namespace and name,
    the constructor succeeds exactly when the lock can be built for this
    identity. *)
Theorem holder_identity_generated
    (clientConfig : RestConfig) (config : configv1.LeaderElection)
    (component : string) (w : World)
    (Huuid : uuid_NewUUID env <> "") :
  let id := fst (holderIdentity env "" w) in
  id = match os_Hostname env with
       | inl hostname => (hostname ++ "_" ++ uuid_NewUUID env)%string
       | inr _ => uuid_NewUUID env
       end /\
  id <> "" /\
  forall kubeClient,
    kubernetes_NewForConfig env clientConfig = inl kubeClient ->
    configv1.Namespace config <> "" ->
    configv1.Name config <> "" ->
    fst (ToConfigMapLeaderElection env clientConfig config component "" w) =
    match resourcelock_New env resourcelock.ConfigMapsResourceLock
            (configv1.Namespace config) (configv1.Name config) kubeClient
            (resourcelock.mkResourceLockConfig id
               (record.mkEventRecorder (corev1.mkEventSource component))) with
    | inl rl =>
        (leaderelection.mkLeaderElectionConfig
           (Some rl)
           (metav1.Duration.Duration (configv1.LeaseDuration config))
           (metav1.Duration.Duration (configv1.RenewDeadline config))
           (metav1.Duration.Duration (configv1.RetryPeriod config))
           (leaderelection.mkLeaderCallbacks None (Some onStoppedLeading) None)
           true,
         None)
    | inr e => (leaderelection.LeaderElectionConfig_zero, Some (callee_error e))
    end.
Proof.
  cbv zeta. rewrite holderIdentity_exec. cbn [fst].
  change (len "" =? 0) with true. cbv iota.
  repeat split.
  - destruct (os_Hostname env) as [hostname|e]; [apply append_nonempty|assumption].
  - intros kubeClient Hclient Hns Hname.
    rewrite (ToConfigMapLeaderElection_valid _ _ _ _ _ _ Hclient Hns Hname).
    rewrite holderIdentity_exec. reflexivity.
Qed.

(** C7.  The [OnStoppedLeading] callback of a configuration returned by
    the constructor, run in a live process, logs the warning and exits
    the process with status 0; nothing runs in the process afterwards. *)
Theorem on_stopped_leading_exits
    (clientConfig : RestConfig) (config : configv1.LeaderElection)
    (component identity : string) (w : World)
    (cfg : leaderelection.LeaderElectionConfig Lock)
    (Hok : fst (ToConfigMapLeaderElection env clientConfig config component identity w)
           = (cfg, None)) :
  exists f : Func,
    leaderelection.OnStoppedLeading (leaderelection.Callbacks cfg) = Some f /\
    forall p : Proc,
      exited p = None ->
      run f p = mkProc (klog p ++ ["leader election lost"]) (Some 0) /\
      forall action : Func, run action (run f p) = run f p.
Proof.
  apply ToConfigMapLeaderElection_ok in Hok.
  destruct Hok as (kubeClient & rl & _ & _ & _ & _ & ->).
  exists onStoppedLeading. split; [reflexivity|].
  intros [log status] Hlive. cbn in Hlive. subst status.
  split; [reflexivity|]. intros action. reflexivity.
Qed.

(** C9.  Every configuration returned by a successful call of the
    constructor has [ReleaseOnCancel] set. *)
Theorem constructor_sets_release_on_cancel
    (clientConfig : RestConfig) (config : configv1.LeaderElection)
    (component identity : string) (w : World)
    (cfg : leaderelection.LeaderElectionConfig Lock)
    (Hok : fst (ToConfigMapLeaderElection env clientConfig config component identity w)
           = (cfg, None)) :
  leaderelection.ReleaseOnCancel cfg = true.
Proof.
  apply ToConfigMapLeaderElection_ok in Hok.
  destruct Hok as (kubeClient & rl & _ & _ & _ & _ & ->). reflexivity.
Qed.

(** C10.  A successful call of the constructor returns the three
    durations of its input as they are, and its success does not depend
    on them: the same call with any other three durations, zero or out
    of order, succeeds as well and returns those. *)
Theorem constructor_passes_durations_through
    (clientConfig : RestConfig) (config : configv1.LeaderElection)
    (component identity : string) (w : World)
    (cfg : leaderelection.LeaderElectionConfig Lock)
    (Hok : fst (ToConfigMapLeaderElection env clientConfig config component identity w)
           = (cfg, None)) :
  (leaderelection.LeaseDuration cfg
     = metav1.Duration.Duration (configv1.LeaseDuration config) /\
   leaderelection.RenewDeadline cfg
     = metav1.Duration.Duration (configv1.RenewDeadline config) /\
   leaderelection.RetryPeriod cfg
     = metav1.Duration.Duration (configv1.RetryPeriod config)) /\
  forall leaseDuration renewDeadline retryPeriod : time.Duration,
    exists cfg',
      fst (ToConfigMapLeaderElection env clientConfig
             (configv1.set_LeaseDuration leaseDuration
                (configv1.set_RenewDeadline renewDeadline
                   (configv1.set_RetryPeriod retryPeriod config)))
             component identity w) = (cfg', None) /\
      leaderelection.LeaseDuration cfg' = leaseDuration /\
      leaderelection.RenewDeadline cfg' = renewDeadline /\
      leaderelection.RetryPeriod cfg' = retryPeriod.
Proof.
  apply ToConfigMapLeaderElection_ok in Hok.
  destruct Hok as (kubeClient & rl & Hclient & Hns & Hname & Hlock & ->).
  split; [repeat split|].
  intros leaseDuration renewDeadline retryPeriod.
  eexists. split.
  - rewrite (ToConfigMapLeaderElection_valid _ _ _ _ _ _ Hclient); [|exact Hns|exact Hname].
    fields. rewrite Hlock. reflexivity.
  - repeat split.
Qed.

End Properties.

(** ** The properties on concrete worlds *)

(** The four levels of the namespace precedence, run on [goodEnv] and
    [noFileEnv]. *)
Example namespace_from_config :
  configv1.Namespace
    (fst (LeaderElectionDefaulting goodEnv explicitConfig "fallback" "lock" emptyWorld))
  = "openshift-etcd".
Proof. reflexivity. Qed.

Example namespace_from_argument :
  configv1.Namespace
    (fst (LeaderElectionDefaulting goodEnv configv1.LeaderElection_zero "fallback" "lock"
            emptyWorld))
  = "fallback".
Proof. reflexivity. Qed.

Example namespace_from_file :
  LeaderElectionDefaulting goodEnv configv1.LeaderElection_zero "" "lock" emptyWorld
  = (let r := configv1.mkLeaderElection false "openshift-etcd" "lock"
                (metav1.Duration.mk 137000000000) (metav1.Duration.mk 107000000000)
                (metav1.Duration.mk 26000000000) in
     (r, mkWorld [configv1.LeaderElection_zero; configv1.LeaderElection_zero; r]
           [ioutil_ReadFile_call serviceAccountNamespaceFile])).
Proof. reflexivity. Qed.

Example namespace_left_empty :
  configv1.Namespace
    (fst (LeaderElectionDefaulting noFileEnv configv1.LeaderElection_zero "" "lock"
            emptyWorld))
  = "".
Proof. reflexivity. Qed.

Example constructor_rejects_empty_namespace :
  fst (ToConfigMapLeaderElection noFileEnv tt
         (fst (LeaderElectionDefaulting noFileEnv configv1.LeaderElection_zero "" "lock"
                 emptyWorld))
         "etcd" "" emptyWorld)
  = (leaderelection.LeaderElectionConfig_zero,
     Some (fmt_Errorf "namespace may not be empty")).
Proof. reflexivity. Qed.

(** C1, the claim as it was stated fails for [LeaderElectionSNOConfig]: a
    lease duration of 10s set by the user comes back as 270s. *)
Lemma sno_overwrites_explicit_durations :
  metav1.Duration.Duration (configv1.LeaseDuration explicitConfig) <> 0 /\
  configv1.LeaseDuration (fst (LeaderElectionSNOConfig explicitConfig emptyWorld))
    = metav1.Duration.mk (270 * time.Second) /\
  configv1.LeaseDuration (fst (LeaderElectionSNOConfig explicitConfig emptyWorld))
    <> configv1.LeaseDuration explicitConfig.
Proof. repeat split; vm_compute; discriminate. Qed.

Lemma defaulted_durations_ordered_witness :
  metav1.Duration.Duration (configv1.LeaseDuration configv1.LeaderElection_zero) = 0 /\
  metav1.Duration.Duration (configv1.RenewDeadline configv1.LeaderElection_zero) = 0 /\
  metav1.Duration.Duration (configv1.RetryPeriod configv1.LeaderElection_zero) = 0 /\
  let r := fst (LeaderElectionDefaulting goodEnv configv1.LeaderElection_zero "" "lock"
                  emptyWorld) in
  0 < metav1.Duration.Duration (configv1.RetryPeriod r)
    < metav1.Duration.Duration (configv1.RenewDeadline r) /\
  metav1.Duration.Duration (configv1.RenewDeadline r)
    < metav1.Duration.Duration (configv1.LeaseDuration r).
Proof.
  destruct (defaulted_durations_ordered goodEnv configv1.LeaderElection_zero "" "lock"
              emptyWorld eq_refl eq_refl eq_refl) as [(Hpos & Hretry & Hrenew) _].
  do 3 (split; [reflexivity|]).
  exact (conj (conj Hpos Hretry) Hrenew).
Defined.

Lemma defaulted_downtime_tolerance_witness :
  metav1.Duration.Duration (configv1.LeaseDuration configv1.LeaderElection_zero) = 0 /\
  metav1.Duration.Duration (configv1.RenewDeadline configv1.LeaderElection_zero) = 0 /\
  metav1.Duration.Duration (configv1.RetryPeriod configv1.LeaderElection_zero) = 0 /\
  let r := fst (LeaderElectionDefaulting goodEnv configv1.LeaderElection_zero "" "lock"
                  emptyWorld) in
  let s := fst (LeaderElectionSNOConfig configv1.LeaderElection_zero emptyWorld) in
  downtimeTolerance (metav1.Duration.Duration (configv1.RenewDeadline r))
    (metav1.Duration.Duration (configv1.RetryPeriod r)) = 78 * time.Second /\
  downtimeTolerance (metav1.Duration.Duration (configv1.RenewDeadline s))
    (metav1.Duration.Duration (configv1.RetryPeriod s)) = 180 * time.Second.
Proof.
  destruct (defaulted_downtime_tolerance goodEnv configv1.LeaderElection_zero "" "lock"
              emptyWorld eq_refl eq_refl eq_refl)
    as [(_ & _ & _ & Hstandard) (_ & _ & _ & Hsno)].
  do 3 (split; [reflexivity|]).
  exact (conj Hstandard Hsno).
Defined.

Lemma defaulting_does_not_mutate_input_witness :
  cells callerWorld !! 0%nat = Some explicitConfig /\
  cells (snd (LeaderElectionDefaulting goodEnv explicitConfig "fallback" "lock"
                callerWorld)) !! 0%nat = Some explicitConfig /\
  cells (snd (LeaderElectionSNOConfig explicitConfig callerWorld)) !! 0%nat
    = Some explicitConfig.
Proof.
  pose proof (defaulting_does_not_mutate_input goodEnv explicitConfig "fallback" "lock"
                callerWorld 0%nat eq_refl) as H.
  split; [reflexivity|]. split; apply H.
Defined.

Lemma constructor_validates_namespace_and_name_witness :
  (configv1.Namespace configv1.LeaderElection_zero = "" /\
   fst (ToConfigMapLeaderElection goodEnv tt configv1.LeaderElection_zero "etcd" ""
          emptyWorld)
   = (leaderelection.LeaderElectionConfig_zero,
      Some (fmt_Errorf "namespace may not be empty"))) /\
  (configv1.Namespace explicitConfig <> "" /\ configv1.Name explicitConfig <> "" /\
   snd (fst (ToConfigMapLeaderElection goodEnv tt explicitConfig "etcd" "" emptyWorld))
   <> Some (fmt_Errorf "namespace may not be empty")).
Proof.
  split.
  - split; [reflexivity|].
    destruct (constructor_validates_namespace_and_name goodEnv tt
                configv1.LeaderElection_zero "etcd" "" emptyWorld) as [H _].
    destruct (H (or_introl eq_refl)) as (Hcfg & _ & Herr).
    destruct (Herr tt eq_refl) as [Herr' _].
    rewrite (surjective_pairing (fst _)), Hcfg, Herr'. reflexivity.
  - split; [discriminate|]. split; [discriminate|].
    destruct (constructor_validates_namespace_and_name goodEnv tt explicitConfig
                "etcd" "" emptyWorld) as [_ H].
    apply H; discriminate.
Defined.

Lemma holder_identity_generated_witness :
  uuid_NewUUID noHostnameEnv <> "" /\
  fst (holderIdentity noHostnameEnv "" emptyWorld) = uuid_NewUUID noHostnameEnv /\
  fst (holderIdentity noHostnameEnv "" emptyWorld) <> "" /\
  snd (fst (ToConfigMapLeaderElection noHostnameEnv tt explicitConfig "etcd" ""
              emptyWorld)) = None.
Proof.
  assert (Huuid : uuid_NewUUID noHostnameEnv <> "") by discriminate.
  destruct (holder_identity_generated noHostnameEnv tt explicitConfig "etcd" emptyWorld
              Huuid) as (Hid & Hne & Hctor).
  split; [exact Huuid|]. split; [exact Hid|]. split; [exact Hne|].
  rewrite (Hctor tt eq_refl); [reflexivity|discriminate|discriminate].
Defined.

Lemma on_stopped_leading_exits_witness :
  snd (fst (ToConfigMapLeaderElection goodEnv tt explicitConfig "etcd" "" emptyWorld))
    = None /\
  exists f : Func,
    leaderelection.OnStoppedLeading
      (leaderelection.Callbacks
         (fst (fst (ToConfigMapLeaderElection goodEnv tt explicitConfig "etcd" ""
                      emptyWorld)))) = Some f /\
    run f (mkProc [] None) = mkProc ["leader election lost"] (Some 0) /\
    run (klog_Warningf "still leading") (run f (mkProc [] None))
      = mkProc ["leader election lost"] (Some 0).
Proof.
  split; [reflexivity|].
  destruct (on_stopped_leading_exits goodEnv tt explicitConfig "etcd" "" emptyWorld _
              eq_refl) as (f & Hf & Hrun).
  exists f. split; [exact Hf|].
  destruct (Hrun (mkProc [] None) eq_refl) as [Hexit Hafter].
  split; [exact Hexit|]. rewrite Hafter. exact Hexit.
Defined.

Lemma constructor_sets_release_on_cancel_witness :
  snd (fst (ToConfigMapLeaderElection goodEnv tt explicitConfig "etcd" "me" emptyWorld))
    = None /\
  leaderelection.ReleaseOnCancel
    (fst (fst (ToConfigMapLeaderElection goodEnv tt explicitConfig "etcd" "me"
                 emptyWorld))) = true.
Proof.
  split; [reflexivity|].
  apply (constructor_sets_release_on_cancel goodEnv tt explicitConfig "etcd" "me"
           emptyWorld _ eq_refl).
Defined.

Lemma constructor_passes_durations_through_witness :
  snd (fst (ToConfigMapLeaderElection goodEnv tt explicitConfig "etcd" "me" emptyWorld))
    = None /\
  leaderelection.LeaseDuration
    (fst (fst (ToConfigMapLeaderElection goodEnv tt explicitConfig "etcd" "me"
                 emptyWorld))) = 10 * time.Second /\
  exists cfg',
    fst (ToConfigMapLeaderElection goodEnv tt
           (configv1.set_LeaseDuration 0
              (configv1.set_RenewDeadline 5
                 (configv1.set_RetryPeriod 7 explicitConfig)))
           "etcd" "me" emptyWorld) = (cfg', None) /\
    leaderelection.LeaseDuration cfg' = 0 /\
    leaderelection.RenewDeadline cfg' = 5 /\
    leaderelection.RetryPeriod cfg' = 7.
Proof.
  split; [reflexivity|].
  destruct (constructor_passes_durations_through goodEnv tt explicitConfig "etcd" "me"
              emptyWorld _ eq_refl) as [(HLeaseDuration & _ & _) Hany].
  split; [exact HLeaseDuration|]. exact (Hany 0 5 7).
Defined.

(** ** Further properties of the defaulting functions and the constructor *)

(** Projections and field assignments of [configv1.LeaderElection]. *)
Ltac simpl_fields :=
  cbn [configv1.Disable configv1.Namespace configv1.Name
       configv1.LeaseDuration configv1.RenewDeadline configv1.RetryPeriod
       configv1.set_LeaseDuration configv1.set_RenewDeadline
       configv1.set_RetryPeriod configv1.set_Namespace configv1.set_Name
       metav1.Duration.Duration].

(** Runs the constructor up to the next test. *)
Ltac run_constructor :=
  unfold ToConfigMapLeaderElection;
  repeat (unfold bind, pure, skip, emit; cbn [cells trace fst snd];
          rewrite ?holderIdentity_exec).

Section MoreProperties.

Context {RestConfig Clientset Lock : Type}.
Variable env : Env RestConfig Clientset Lock.

(** X1.  The name returned by [LeaderElectionDefaulting] is the input's own
    when that is not empty and the fallback argument otherwise, also when
    the fallback is empty itself (lines 122-124). *)
Theorem name_resolution_precedence
    (config : configv1.LeaderElection) (defaultNamespace defaultName : string)
    (w : World) :
  configv1.Name
    (fst (LeaderElectionDefaulting env config defaultNamespace defaultName w)) =
  if negb (len (configv1.Name config) =? 0) then configv1.Name config
  else defaultName.
Proof.
  rewrite LeaderElectionDefaulting_exec. cbn [fst]. unfold defaulted. simpl_fields.
  destruct (len (configv1.Name config) =? 0); reflexivity.
Qed.

(** X2.  [LeaderElectionSNOConfig] changes nothing but the three durations, and
    [LeaderElectionDefaulting] never changes [Disable]. *)
Theorem defaulting_keeps_other_fields
    (config : configv1.LeaderElection) (defaultNamespace defaultName : string)
    (w : World) :
  let r := fst (LeaderElectionDefaulting env config defaultNamespace defaultName w) in
  let s := fst (LeaderElectionSNOConfig config w) in
  configv1.Disable r = configv1.Disable config /\
  configv1.Disable s = configv1.Disable config /\
  configv1.Namespace s = configv1.Namespace config /\
  configv1.Name s = configv1.Name config.
Proof.
  cbv zeta. rewrite LeaderElectionDefaulting_exec, LeaderElectionSNOConfig_exec.
  repeat split.
Qed.

Lemma defaultTo_idempotent (dflt : time.Duration) (d : metav1.Duration.t) :
  dflt <> 0 -> defaultTo dflt (defaultTo dflt d) = defaultTo dflt d.
Proof.
  intros Hdflt. unfold defaultTo.
  destruct (metav1.Duration.Duration d =? 0) eqn:Hd.
  - cbn [metav1.Duration.Duration].
    destruct (dflt =? 0) eqn:E; [apply Z.eqb_eq in E; contradiction|reflexivity].
  - now rewrite Hd.
Qed.

(** X3.  Defaulting a configuration that was already defaulted, in the same
    environment and with the same fallbacks, changes nothing. *)
Theorem defaulting_idempotent
    (config : configv1.LeaderElection) (defaultNamespace defaultName : string)
    (w w' : World) :
  let r := fst (LeaderElectionDefaulting env config defaultNamespace defaultName w) in
  fst (LeaderElectionDefaulting env r defaultNamespace defaultName w') = r.
Proof.
  cbv zeta. rewrite !LeaderElectionDefaulting_exec. cbn [fst].
  unfold defaulted. simpl_fields.
  rewrite !defaultTo_idempotent by (unfold time.Second; lia).
  destruct config as [dis ns nm ld rd rp]. simpl_fields.
  f_equal.
  - destruct (len ns =? 0) eqn:Hns; [|now rewrite Hns].
    destruct (len defaultNamespace >? 0) eqn:Hdns.
    + rewrite len_gtb_0 in Hdns. apply negb_true_iff in Hdns. now rewrite Hdns.
    + destruct (ioutil_ReadFile env serviceAccountNamespaceFile) as [data|e].
      * destruct (len (strings_TrimSpace env data) >? 0) eqn:Hdata.
        -- rewrite len_gtb_0 in Hdata. apply negb_true_iff in Hdata.
           now rewrite Hdata.
        -- now rewrite Hns.
      * now rewrite Hns.
  - destruct (len nm =? 0) eqn:Hnm; [|now rewrite Hnm].
    destruct (len defaultName =? 0); reflexivity.
Qed.

(** X4.  [LeaderElectionDefaulting] reads the service-account namespace file
    only when both the input's namespace and the fallback are empty, then
    once, and makes no other call; [LeaderElectionSNOConfig] makes no call
    at all. *)
Theorem defaulting_reads_file_at_most_once
    (config : configv1.LeaderElection) (defaultNamespace defaultName : string)
    (w : World) :
  trace (snd (LeaderElectionDefaulting env config defaultNamespace defaultName w)) =
    (trace w ++
     if (len (configv1.Namespace config) =? 0) && (len defaultNamespace =? 0)
     then [ioutil_ReadFile_call serviceAccountNamespaceFile] else [])%list /\
  trace (snd (LeaderElectionSNOConfig config w)) = trace w.
Proof.
  rewrite LeaderElectionDefaulting_exec, LeaderElectionSNOConfig_exec.
  cbn [snd trace]. unfold namespaceReads. rewrite len_gtb_0.
  destruct (len (configv1.Namespace config) =? 0), (len defaultNamespace =? 0);
    split; reflexivity.
Qed.

(** X5.  The two defaulting functions can be applied in either order: the
    single-node profile of a defaulted configuration is the defaulted
    single-node profile, with the namespace and the name resolved and the
    durations 270s, 240s and 60s. *)
Theorem sno_and_defaulting_commute
    (config : configv1.LeaderElection) (defaultNamespace defaultName : string)
    (w1 w2 w3 w4 : World) :
  let r := fst (LeaderElectionDefaulting env config defaultNamespace defaultName w1) in
  let s := fst (LeaderElectionSNOConfig config w2) in
  fst (LeaderElectionSNOConfig r w3) =
    fst (LeaderElectionDefaulting env s defaultNamespace defaultName w4) /\
  fst (LeaderElectionSNOConfig r w3) =
    configv1.mkLeaderElection (configv1.Disable config)
      (configv1.Namespace r) (configv1.Name r)
      (metav1.Duration.mk (270 * time.Second))
      (metav1.Duration.mk (240 * time.Second))
      (metav1.Duration.mk (60 * time.Second)).
Proof.
  cbv zeta.
  rewrite !LeaderElectionDefaulting_exec, !LeaderElectionSNOConfig_exec.
  cbn [fst]. split; reflexivity.
Qed.

(** X6.  A configuration defaulted with a non-empty fallback namespace and a
    non-empty fallback name always passes the validation of the
    constructor. *)
Theorem defaulted_config_passes_validation
    (clientConfig : RestConfig) (config : configv1.LeaderElection)
    (defaultNamespace defaultName component identity : string) (w w' : World)
    (Hnamespace : defaultNamespace <> "") (Hname : defaultName <> "") :
  let r := fst (LeaderElectionDefaulting env config defaultNamespace defaultName w) in
  configv1.Namespace r <> "" /\ configv1.Name r <> "" /\
  forall msg,
    snd (fst (ToConfigMapLeaderElection env clientConfig r component identity w'))
    <> Some (fmt_Errorf msg).
Proof.
  cbv zeta.
  assert (Hns : configv1.Namespace
                  (fst (LeaderElectionDefaulting env config defaultNamespace
                          defaultName w)) <> "").
  { rewrite LeaderElectionDefaulting_exec. cbn [fst]. unfold defaulted. simpl_fields.
    rewrite len_gtb_0.
    destruct (len (configv1.Namespace config) =? 0) eqn:E.
    - destruct (len defaultNamespace =? 0) eqn:E'; cbn [negb]; [|assumption].
      apply len_eqb_0 in E'. contradiction.
    - intros H. apply len_eqb_0 in H. congruence. }
  assert (Hnm : configv1.Name
                  (fst (LeaderElectionDefaulting env config defaultNamespace
                          defaultName w)) <> "").
  { rewrite LeaderElectionDefaulting_exec. cbn [fst]. unfold defaulted. simpl_fields.
    destruct (len (configv1.Name config) =? 0) eqn:E; [assumption|].
    intros H. apply len_eqb_0 in H. congruence. }
  split; [exact Hns|]. split; [exact Hnm|].
  intros msg.
  destruct (kubernetes_NewForConfig env clientConfig) as [kubeClient|e] eqn:Hclient.
  - rewrite (ToConfigMapLeaderElection_valid env _ _ _ _ _ _ Hclient Hns Hnm).
    match goal with
    | |- context [resourcelock_New ?e ?a ?b ?c ?d ?r] =>
        destruct (resourcelock_New e a b c d r)
    end; discriminate.
  - destruct w' as [h t]. run_constructor. rewrite Hclient. run_constructor. discriminate.
Qed.

(** X7.  A configuration built from a defaulted one never carries a zero
    duration to the election client. *)
Theorem defaulted_config_gives_nonzero_durations
    (clientConfig : RestConfig) (config : configv1.LeaderElection)
    (defaultNamespace defaultName component identity : string) (w w' : World)
    (cfg : leaderelection.LeaderElectionConfig Lock)
    (Hok : fst (ToConfigMapLeaderElection env clientConfig
                  (fst (LeaderElectionDefaulting env config defaultNamespace
                          defaultName w))
                  component identity w') = (cfg, None)) :
  leaderelection.LeaseDuration cfg <> 0 /\
  leaderelection.RenewDeadline cfg <> 0 /\
  leaderelection.RetryPeriod cfg <> 0.
Proof.
  apply ToConfigMapLeaderElection_ok in Hok.
  destruct Hok as (kubeClient & rl & _ & _ & _ & _ & ->).
  cbn [leaderelection.LeaseDuration leaderelection.RenewDeadline
       leaderelection.RetryPeriod].
  rewrite LeaderElectionDefaulting_exec. cbn [fst]. unfold defaulted, defaultTo. simpl_fields.
  repeat split.
  - destruct (metav1.Duration.Duration (configv1.LeaseDuration config) =? 0) eqn:E;
      [discriminate | now apply Z.eqb_neq].
  - destruct (metav1.Duration.Duration (configv1.RenewDeadline config) =? 0) eqn:E;
      [discriminate | now apply Z.eqb_neq].
  - destruct (metav1.Duration.Duration (configv1.RetryPeriod config) =? 0) eqn:E;
      [discriminate | now apply Z.eqb_neq].
Qed.

(** X8.  When the client cannot be built the constructor returns the callee's
    error with the empty configuration and does nothing else: no
    hostname or UUID is asked for, nothing is validated, no broadcaster
    or lock is made (lines 27-30). *)
Theorem constructor_client_failure
    (clientConfig : RestConfig) (config : configv1.LeaderElection)
    (component identity : string) (w : World) (e : string)
    (Hclient : kubernetes_NewForConfig env clientConfig = inr e) :
  ToConfigMapLeaderElection env clientConfig config component identity w =
  (leaderelection.LeaderElectionConfig_zero, Some (callee_error e),
   mkWorld (cells w) (trace w ++ [kubernetes_NewForConfig_call])).
Proof.
  destruct w as [h t]. run_constructor. rewrite Hclient. reflexivity.
Qed.

(** X9.  With a client and a non-empty namespace and name, the constructor
    makes the same calls whether the lock can be built or not: the
    client, the identity calls, the broadcaster with logging and
    recording, the recorder for [component], and one lock of type
    [configmaps] for the namespace, the name and the holder identity.
    It writes no cell. *)
Theorem constructor_calls_in_order
    (clientConfig : RestConfig) (config : configv1.LeaderElection)
    (component identity : string) (w : World) (kubeClient : Clientset)
    (Hclient : kubernetes_NewForConfig env clientConfig = inl kubeClient)
    (Hnamespace : configv1.Namespace config <> "")
    (Hname : configv1.Name config <> "") :
  snd (ToConfigMapLeaderElection env clientConfig config component identity w) =
  mkWorld (cells w)
    (trace w ++
     kubernetes_NewForConfig_call ::
     identityCalls identity ++
     [record_NewBroadcaster_call; StartLogging_call; StartRecordingToSink_call;
      NewRecorder_call (corev1.mkEventSource component);
      resourcelock_New_call resourcelock.ConfigMapsResourceLock
        (configv1.Namespace config) (configv1.Name config)
        (resourcelock.mkResourceLockConfig
           (fst (holderIdentity env identity w))
           (record.mkEventRecorder (corev1.mkEventSource component)))]).
Proof.
  destruct w as [h t]. run_constructor. rewrite Hclient. run_constructor.
  destruct (len (configv1.Namespace config) =? 0) eqn:Ens.
  { apply len_eqb_0 in Ens. contradiction. }
  destruct (len (configv1.Name config) =? 0) eqn:Ename.
  { apply len_eqb_0 in Ename. contradiction. }
  run_constructor.
  match goal with
  | |- context [resourcelock_New ?e ?a ?b ?c ?d ?r] =>
      destruct (resourcelock_New e a b c d r)
  end; cbn [snd]; f_equal; rewrite <- !app_assoc; cbn [app]; reflexivity.
Qed.

(** X10.  A non-empty identity given by the caller is the holder identity as it
    is: neither the hostname nor a UUID is asked for, and the lock is
    built for this identity. *)
Theorem caller_identity_used_verbatim
    (clientConfig : RestConfig) (config : configv1.LeaderElection)
    (component identity : string) (w : World) (kubeClient : Clientset)
    (Hidentity : identity <> "")
    (Hclient : kubernetes_NewForConfig env clientConfig = inl kubeClient)
    (Hnamespace : configv1.Namespace config <> "")
    (Hname : configv1.Name config <> "") :
  holderIdentity env identity w = (identity, w) /\
  In (resourcelock_New_call resourcelock.ConfigMapsResourceLock
        (configv1.Namespace config) (configv1.Name config)
        (resourcelock.mkResourceLockConfig identity
           (record.mkEventRecorder (corev1.mkEventSource component))))
     (trace (snd (ToConfigMapLeaderElection env clientConfig config component
                    identity w))) /\
  ~ In os_Hostname_call
      (skipn (length (trace w))
         (trace (snd (ToConfigMapLeaderElection env clientConfig config component
                        identity w)))) /\
  ~ In uuid_NewUUID_call
      (skipn (length (trace w))
         (trace (snd (ToConfigMapLeaderElection env clientConfig config component
                        identity w)))).
Proof.
  assert (Hlen : (len identity =? 0) = false).
  { destruct (len identity =? 0) eqn:E; [|reflexivity].
    apply len_eqb_0 in E. contradiction. }
  assert (Hid : holderIdentity env identity w = (identity, w)).
  { rewrite holderIdentity_exec. unfold identityCalls. rewrite Hlen.
    destruct w as [h t]. cbn [cells trace]. now rewrite app_nil_r. }
  split; [exact Hid|].
  destruct w as [h t]. run_constructor. rewrite Hclient. run_constructor.
  unfold identityCalls. rewrite Hlen, app_nil_r.
  destruct (len (configv1.Namespace config) =? 0) eqn:Ens.
  { apply len_eqb_0 in Ens. contradiction. }
  destruct (len (configv1.Name config) =? 0) eqn:Ename.
  { apply len_eqb_0 in Ename. contradiction. }
  run_constructor.
  match goal with
  | |- context [resourcelock_New ?e ?a ?b ?c ?d ?r] =>
      destruct (resourcelock_New e a b c d r)
  end; cbn [snd trace]; rewrite <- !app_assoc; cbn [app];
    rewrite drop_app_length; (repeat split);
    solve [ apply in_or_app; right; cbn; tauto
          | cbn; intros H; repeat (destruct H as [H|H]; [discriminate|]); exact H ].
Qed.

(** X11.  The constructor returns either an error together with the empty
    configuration, or no error together with a configuration that holds
    a lock, has [ReleaseOnCancel] set and has [OnStoppedLeading] as its
    only callback: [OnStartedLeading] and [OnNewLeader] are left for the
    caller to fill in. *)
Theorem constructor_result_shape
    (clientConfig : RestConfig) (config : configv1.LeaderElection)
    (component identity : string) (w : World) :
  let cfg := fst (fst (ToConfigMapLeaderElection env clientConfig config component
                         identity w)) in
  let err := snd (fst (ToConfigMapLeaderElection env clientConfig config component
                         identity w)) in
  (err <> None /\ cfg = leaderelection.LeaderElectionConfig_zero) \/
  (err = None /\
   leaderelection.Lock cfg <> None /\
   leaderelection.ReleaseOnCancel cfg = true /\
   leaderelection.OnStartedLeading (leaderelection.Callbacks cfg) = None /\
   leaderelection.OnNewLeader (leaderelection.Callbacks cfg) = None /\
   leaderelection.OnStoppedLeading (leaderelection.Callbacks cfg) <> None).
Proof.
  cbv zeta.
  destruct (kubernetes_NewForConfig env clientConfig) as [kubeClient|e] eqn:Hclient.
  2:{ destruct w as [h t]. run_constructor. rewrite Hclient. cbn [fst snd].
      left. split; [discriminate|reflexivity]. }
  destruct (len (configv1.Namespace config) =? 0) eqn:Ens.
  { apply len_eqb_0 in Ens.
    rewrite (ToConfigMapLeaderElection_invalid env _ _ _ _ _ _ Hclient (or_introl Ens)).
    left. split; [discriminate|reflexivity]. }
  destruct (len (configv1.Name config) =? 0) eqn:Ename.
  { apply len_eqb_0 in Ename.
    rewrite (ToConfigMapLeaderElection_invalid env _ _ _ _ _ _ Hclient (or_intror Ename)).
    left. split; [discriminate|reflexivity]. }
  assert (Hns : configv1.Namespace config <> "").
  { intros H. apply len_eqb_0 in H. congruence. }
  assert (Hnm : configv1.Name config <> "").
  { intros H. apply len_eqb_0 in H. congruence. }
  rewrite (ToConfigMapLeaderElection_valid env _ _ _ _ _ _ Hclient Hns Hnm).
  match goal with
  | |- context [resourcelock_New ?e ?a ?b ?c ?d ?r] =>
      destruct (resourcelock_New e a b c d r)
  end.
  - right. cbn. repeat split; discriminate.
  - left. split; [discriminate|reflexivity].
Qed.

Lemma append_cancel_l (a b c : string) :
  (a ++ b)%string = (a ++ c)%string -> b = c.
Proof.
  induction a as [|x a IH]; cbn; intros H; [exact H|].
  injection H as H. exact (IH H).
Qed.

(** X12.  Two processes that get the same answer for the hostname but different
    UUIDs have different holder identities: on one host the UUID suffix
    keeps two instances apart. *)
Theorem holder_identities_differ
    (env' : Env RestConfig Clientset Lock) (w w' : World)
    (Hhost : os_Hostname env = os_Hostname env')
    (Huuid : uuid_NewUUID env <> uuid_NewUUID env') :
  fst (holderIdentity env "" w) <> fst (holderIdentity env' "" w').
Proof.
  rewrite !holderIdentity_exec. cbn [fst].
  change (len "" =? 0) with true. cbv iota.
  rewrite <- Hhost.
  destruct (os_Hostname env) as [hostname|e]; [|exact Huuid].
  intros H. apply append_cancel_l in H. apply (append_cancel_l "_") in H.
  contradiction.
Qed.

End MoreProperties.

(** ** The downtime tolerance *)

(** X13.  For a positive retry period the downtime tolerance of lines 91-93 is
    at most [renewDeadline - retryPeriod] and more than
    [renewDeadline - 2 * retryPeriod]; it is [renewDeadline - retryPeriod]
    exactly when the retry period divides the renew deadline. *)
Theorem downtimeTolerance_bounds (renewDeadline retryPeriod : time.Duration)
    (Hpositive : 0 < retryPeriod) :
  renewDeadline - 2 * retryPeriod < downtimeTolerance renewDeadline retryPeriod
    <= renewDeadline - retryPeriod /\
  (downtimeTolerance renewDeadline retryPeriod = renewDeadline - retryPeriod
   <-> renewDeadline mod retryPeriod = 0).
Proof.
  unfold downtimeTolerance, lastRetry.
  pose proof (Z.div_mod renewDeadline retryPeriod) as Hdiv.
  pose proof (Z.mod_pos_bound renewDeadline retryPeriod Hpositive) as Hmod.
  split; [nia|]. split; intros H; nia.
Qed.

Section SyncProperties.

Variables FallbackForRevision FallbackReason FallbackMessage : string.
Context {Selector : Type}.

Lemma string_append_assoc (a b c : string) :
  ((a ++ b) ++ c)%string = (a ++ b ++ c)%string.
Proof.
  induction a as [|x a IH]; [reflexivity|].
  change (String x ((a ++ b) ++ c)%string = String x (a ++ b ++ c)%string).
  now rewrite IH.
Qed.

Lemma concat_merge_head (sep a m : string) (l : list string) :
  String.concat sep ((a ++ sep ++ m)%string :: l) = String.concat sep (a :: m :: l).
Proof.
  destruct l as [|y l]; [reflexivity|].
  cbn [String.concat]. now rewrite !string_append_assoc.
Qed.

Lemma len_append_nonempty (a b : string) :
  (len b =? 0) = false -> (len (a ++ b) =? 0) = false.
Proof. intros Hb. destruct a; [exact Hb|reflexivity]. Qed.

(** The accumulators after the loop, for any starting values. *)
Lemma fold_syncPod (kasPods : list podv1.Pod) (conditionReason conditionMessage : string) :
  fold_left (syncPod FallbackForRevision FallbackReason FallbackMessage) kasPods
    (conditionReason, conditionMessage) =
  (if len conditionReason =? 0
   then firstNonEmpty
          (map (reasonOf FallbackReason)
             (List.filter (isFallback FallbackForRevision) kasPods))
   else conditionReason,
   if len conditionMessage =? 0
   then String.concat newline
          (map (messageOf FallbackForRevision FallbackMessage)
             (List.filter (isFallback FallbackForRevision) kasPods))
   else String.concat newline
          (conditionMessage ::
           map (messageOf FallbackForRevision FallbackMessage)
             (List.filter (isFallback FallbackForRevision) kasPods))).
Proof.
  revert conditionReason conditionMessage.
  induction kasPods as [|kasPod kasPods IH]; intros conditionReason conditionMessage.
  - cbn. destruct (len conditionReason =? 0) eqn:E.
    + apply len_eqb_0 in E. subst. destruct (len conditionMessage =? 0) eqn:E'.
      * apply len_eqb_0 in E'. now subst.
      * reflexivity.
    + destruct (len conditionMessage =? 0) eqn:E'; [|reflexivity].
      apply len_eqb_0 in E'. now subst.
  - cbn [fold_left List.filter].
    destruct (podv1.Annotations kasPod !! FallbackForRevision) as [fallbackFor|] eqn:Hf.
    + assert (Hfallback : isFallback FallbackForRevision kasPod = true)
        by (unfold isFallback; now rewrite Hf).
      assert (Hstep :
        syncPod FallbackForRevision FallbackReason FallbackMessage
          (conditionReason, conditionMessage) kasPod =
        (if len conditionReason =? 0 then reasonOf FallbackReason kasPod
         else conditionReason,
         if len conditionMessage >? 0
         then (conditionMessage ++ newline
               ++ messageOf FallbackForRevision FallbackMessage kasPod)%string
         else messageOf FallbackForRevision FallbackMessage kasPod)).
      { unfold syncPod, reasonOf, messageOf. rewrite Hf. cbn [default].
        destruct (podv1.Annotations kasPod !! FallbackReason),
                 (podv1.Annotations kasPod !! FallbackMessage); reflexivity. }
      rewrite Hfallback, Hstep, IH. cbn [map firstNonEmpty]. rewrite len_gtb_0.
      f_equal.
      * destruct (len conditionReason =? 0) eqn:E; cbv iota; [|now rewrite E].
        destruct (len (reasonOf FallbackReason kasPod) =? 0); reflexivity.
      * destruct (len conditionMessage =? 0) eqn:E; cbn [negb]; cbv iota.
        -- reflexivity.
        -- rewrite len_append_nonempty by (apply len_append_nonempty; reflexivity).
           apply concat_merge_head.
    + assert (Hfallback : isFallback FallbackForRevision kasPod = false)
        by (unfold isFallback; now rewrite Hf).
      assert (Hstep :
        syncPod FallbackForRevision FallbackReason FallbackMessage
          (conditionReason, conditionMessage) kasPod
        = (conditionReason, conditionMessage))
        by (unfold syncPod; now rewrite Hf).
      rewrite Hfallback, Hstep. apply IH.
Qed.

Lemma existsb_filter_nil {A : Type} (f : A -> bool) (l : list A) :
  existsb f l = false <-> List.filter f l = [].
Proof.
  induction l as [|x l IH]; cbn; [tauto|].
  destruct (f x); cbn; [split; discriminate|exact IH].
Qed.

Lemma concat_messages_nonempty (kasPod : podv1.Pod) (l : list podv1.Pod) :
  (len (String.concat newline
          (map (messageOf FallbackForRevision FallbackMessage) (kasPod :: l))) =? 0)
  = false.
Proof.
  cbn [map].
  destruct (map (messageOf FallbackForRevision FallbackMessage) l); reflexivity.
Qed.

(** The condition after the scan, field by field. *)
Lemma degradedConditionFor_fields
    (degradedCondition : applyoperatorv1.OperatorConditionApplyConfiguration)
    (kasPods : list podv1.Pod) :
  degradedConditionFor FallbackForRevision FallbackReason FallbackMessage
    degradedCondition kasPods =
  if existsb (isFallback FallbackForRevision) kasPods then
    applyoperatorv1.mkOperatorCondition
      (applyoperatorv1.Type_ degradedCondition)
      (Some operatorv1.ConditionTrue)
      (Some (firstNonEmpty
               (map (reasonOf FallbackReason)
                  (List.filter (isFallback FallbackForRevision) kasPods))))
      (Some (String.concat newline
               (map (messageOf FallbackForRevision FallbackMessage)
                  (List.filter (isFallback FallbackForRevision) kasPods))))
  else
    applyoperatorv1.mkOperatorCondition
      (applyoperatorv1.Type_ degradedCondition)
      (Some operatorv1.ConditionFalse)
      (applyoperatorv1.Reason degradedCondition)
      (applyoperatorv1.Message degradedCondition).
Proof.
  unfold degradedConditionFor. rewrite fold_syncPod.
  change (len "" =? 0) with true. cbv iota.
  destruct (existsb (isFallback FallbackForRevision) kasPods) eqn:Hany.
  - destruct (List.filter (isFallback FallbackForRevision) kasPods)
      as [|kasPod l] eqn:Hfilter.
    { apply existsb_filter_nil in Hfilter. congruence. }
    rewrite (len_gtb_0 (String.concat _ _)), concat_messages_nonempty.
    rewrite orb_true_r. reflexivity.
  - apply existsb_filter_nil in Hany. rewrite Hany. reflexivity.
Qed.

(** X15.  While the startup monitor is disabled [sync] does not list any pod:
    it applies the condition with status [False], without reason or
    message, under the controller's name, and returns what the apply
    call returns (lines 76-81 and 65-72). *)
Theorem sync_when_monitor_disabled
    (fd : staticPodFallbackConditionController Selector)
    (Hdisabled : startupMonitorEnabledFn fd tt = inl false) :
  let status :=
    applyoperatorv1.mkOperatorStatus
      [applyoperatorv1.mkOperatorCondition
         (Some "StaticPodFallbackRevisionDegraded")
         (Some operatorv1.ConditionFalse) None None] in
  sync FallbackForRevision FallbackReason FallbackMessage fd =
  (option_map callee_error (operatorClient fd (controllerInstanceName fd) status),
   [startupMonitorEnabledFn_call;
    ApplyOperatorStatus_call (controllerInstanceName fd) status]).
Proof.
  cbv zeta. unfold sync, syncDeferred. rewrite Hdisabled. cbn.
  destruct (operatorClient fd (controllerInstanceName fd) _); reflexivity.
Qed.

(** X16.  When the startup monitor cannot be asked, or the pods cannot be
    listed, [sync] returns that error and applies no status at all. *)
Theorem sync_error_applies_nothing
    (fd : staticPodFallbackConditionController Selector) (e : string)
    (Hfailed : startupMonitorEnabledFn fd tt = inr e \/
               (startupMonitorEnabledFn fd tt = inl true /\
                podLister fd (podLabelSelector fd) = inr e)) :
  fst (sync FallbackForRevision FallbackReason FallbackMessage fd)
    = Some (callee_error e) /\
  forall fieldManager status,
    ~ In (ApplyOperatorStatus_call fieldManager status)
        (snd (sync FallbackForRevision FallbackReason FallbackMessage fd)).
Proof.
  unfold sync, syncDeferred.
  destruct Hfailed as [Hfn|[Hfn Hlist]]; rewrite Hfn; [|rewrite Hlist];
    cbn; (split; [reflexivity|]); intros fieldManager status H;
    repeat (destruct H as [H|H]; [discriminate|]); exact H.
Qed.

(** X17.  With the monitor enabled and the pods listed, [sync] asks the monitor,
    lists the pods for the controller's selector and applies once, under
    the controller's name, a status whose only condition is the one
    computed from the listed pods; it has type
    [StaticPodFallbackRevisionDegraded] and is [True] exactly
    when some listed pod carries the fallback-for-revision annotation and
    [False] otherwise; [sync] returns what the apply call returns. *)
Theorem sync_reports_fallback
    (fd : staticPodFallbackConditionController Selector) (kasPods : list podv1.Pod)
    (Henabled : startupMonitorEnabledFn fd tt = inl true)
    (Hlist : podLister fd (podLabelSelector fd) = inl kasPods) :
  let condition :=
    degradedConditionFor FallbackForRevision FallbackReason FallbackMessage
      (applyoperatorv1.WithType "StaticPodFallbackRevisionDegraded"
         applyoperatorv1.OperatorCondition) kasPods in
  let status := applyoperatorv1.mkOperatorStatus [condition] in
    sync FallbackForRevision FallbackReason FallbackMessage fd =
    (option_map callee_error (operatorClient fd (controllerInstanceName fd) status),
     [startupMonitorEnabledFn_call;
      podLister_List_call (podLabelSelector fd);
      ApplyOperatorStatus_call (controllerInstanceName fd) status]) /\
    applyoperatorv1.Type_ condition = Some "StaticPodFallbackRevisionDegraded" /\
    applyoperatorv1.Status condition =
      Some (if existsb (isFallback FallbackForRevision) kasPods
            then operatorv1.ConditionTrue else operatorv1.ConditionFalse).
Proof.
  cbv zeta. split; [|split].
  - unfold sync, syncDeferred. rewrite Henabled, Hlist.
    unfold applyoperatorv1.WithConditions, applyoperatorv1.OperatorStatus.
    cbn [applyoperatorv1.Conditions app].
    destruct (operatorClient fd (controllerInstanceName fd) _); reflexivity.
  - rewrite degradedConditionFor_fields.
    destruct (existsb (isFallback FallbackForRevision) kasPods); reflexivity.
  - rewrite degradedConditionFor_fields.
    destruct (existsb (isFallback FallbackForRevision) kasPods); reflexivity.
Qed.

(** X18.  When some pod was rolled back, the message of the condition has one
    line per rolled-back pod, in the order the pods were listed, joined
    by line feeds; each line names the pod, the revision and the message
    annotation, or [unknown] without one. *)
Theorem degraded_message_lists_every_fallback
    (degradedCondition : applyoperatorv1.OperatorConditionApplyConfiguration)
    (kasPods : list podv1.Pod)
    (Hany : existsb (isFallback FallbackForRevision) kasPods = true) :
  applyoperatorv1.Message
    (degradedConditionFor FallbackForRevision FallbackReason FallbackMessage
       degradedCondition kasPods) =
  Some (String.concat newline
          (map (fun kasPod =>
                  rolledBackMessage (podv1.Name kasPod)
                    (default "" (podv1.Annotations kasPod !! FallbackForRevision))
                    (default "unknown" (podv1.Annotations kasPod !! FallbackMessage)))
             (List.filter (isFallback FallbackForRevision) kasPods))).
Proof.
  rewrite degradedConditionFor_fields, Hany. reflexivity.
Qed.

(** X19.  When some pod was rolled back, the reason of the condition is the
    first non-empty reason among the rolled-back pods in list order,
    where a pod without reason annotation counts as [Unknown]; a reason
    annotation that is present but empty is passed over, and the reason
    is empty when all of them are. *)
Theorem degraded_reason_is_first_nonempty
    (degradedCondition : applyoperatorv1.OperatorConditionApplyConfiguration)
    (kasPods : list podv1.Pod)
    (Hany : existsb (isFallback FallbackForRevision) kasPods = true) :
  applyoperatorv1.Reason
    (degradedConditionFor FallbackForRevision FallbackReason FallbackMessage
       degradedCondition kasPods) =
  Some (firstNonEmpty
          (map (fun kasPod =>
                  default "Unknown" (podv1.Annotations kasPod !! FallbackReason))
             (List.filter (isFallback FallbackForRevision) kasPods))).
Proof.
  rewrite degradedConditionFor_fields, Hany. reflexivity.
Qed.

Lemma filter_filter_same {A : Type} (f : A -> bool) (l : list A) :
  List.filter f (List.filter f l) = List.filter f l.
Proof.
  induction l as [|x l IH]; [reflexivity|]. cbn.
  destruct (f x) eqn:E; [cbn; rewrite E; now f_equal|exact IH].
Qed.

Lemma existsb_filter_same {A : Type} (f : A -> bool) (l : list A) :
  existsb f (List.filter f l) = existsb f l.
Proof.
  induction l as [|x l IH]; [reflexivity|]. cbn.
  destruct (f x) eqn:E; [cbn; now rewrite E|exact IH].
Qed.

(** X20.  Pods without the fallback-for-revision annotation have no influence
    on the condition, wherever they stand in the list, whatever their
    other annotations are. *)
Theorem degraded_condition_ignores_other_pods
    (degradedCondition : applyoperatorv1.OperatorConditionApplyConfiguration)
    (kasPods : list podv1.Pod) :
  degradedConditionFor FallbackForRevision FallbackReason FallbackMessage
    degradedCondition kasPods =
  degradedConditionFor FallbackForRevision FallbackReason FallbackMessage
    degradedCondition (List.filter (isFallback FallbackForRevision) kasPods).
Proof.
  rewrite !degradedConditionFor_fields.
  now rewrite filter_filter_same, existsb_filter_same.
Qed.

Variable Selector_Empty : Selector -> bool.
Context {Recorder : Type}.
Variable ControllerInstanceName : string -> string -> string.

(** X21.  [New] fails exactly when the pod label selector is nil or empty, and
    then returns no controller; otherwise it returns a controller that
    resyncs every six minutes, watches the pods of the target namespace,
    is named [ControllerInstanceName(instanceName,
    "StaticPodStateFallback")], and whose sync is [sync] for the given
    selector, client, monitor function and the pod lister of the target
    namespace. *)
Theorem New_requires_selector
    (instanceName targetNamespace : string) (selector : option Selector)
    (client :
       string -> applyoperatorv1.OperatorStatusApplyConfiguration -> option string)
    (kubeInformersForNamespaces : string -> Selector -> list podv1.Pod + string)
    (enabledFn : unit -> bool + string) (eventRecorder : Recorder) :
  let result :=
    New FallbackForRevision FallbackReason FallbackMessage Selector_Empty
      ControllerInstanceName instanceName targetNamespace selector client
      kubeInformersForNamespaces enabledFn eventRecorder in
  (snd result <> None <->
   selector = None \/ exists sel, selector = Some sel /\ Selector_Empty sel = true) /\
  (fst result = None <-> snd result <> None) /\
  forall controller,
    fst result = Some controller ->
    exists sel,
      selector = Some sel /\
      ResyncEvery controller = 360 * time.Second /\
      WithInformers controller = targetNamespace /\
      ToController controller =
        (ControllerInstanceName instanceName "StaticPodStateFallback", eventRecorder) /\
      WithSync controller tt =
        sync FallbackForRevision FallbackReason FallbackMessage
          (mkStaticPodFallback
             (ControllerInstanceName instanceName "StaticPodStateFallback")
             client sel (kubeInformersForNamespaces targetNamespace) enabledFn).
Proof.
  cbv zeta. unfold New.
  destruct selector as [sel|].
  - destruct (Selector_Empty sel) eqn:Hempty; cbn [fst snd].
    + repeat split; try discriminate; try (intros; discriminate).
      * intros _. right. now exists sel.
    + repeat split; try discriminate.
      * intros H. contradiction.
      * intros [H|(sel' & [= <-] & H)]; congruence.
      * intros H. contradiction.
      * intros controller [= <-]. exists sel. repeat split.
  - cbn [fst snd]. repeat split; try discriminate; try (intros; discriminate).
    intros _. now left.
Qed.

End SyncProperties.

(** ** Cluster status *)

Section ClusterStatusProperties.

Context {InfraRestConfig InfraClient InfrastructureStatus : Type}.
Variable newForConfig : InfraRestConfig -> InfraClient + string.
Variable get : InfraClient -> string -> Infrastructure InfrastructureStatus + string.

(** X22.  [GetClusterStatus] returns either a status and no error, or no status
    and an error, never both and never neither; a returned status is
    that of the infrastructure resource named [cluster].
    [GetClusterStatusOrDie] returns the same status, hence never nil, and
    panics with the same error. *)
Theorem GetClusterStatus_status_or_error (restClient : InfraRestConfig) :
  (exists client infra,
     newForConfig restClient = inl client /\
     get client "cluster" = inl infra /\
     GetClusterStatus newForConfig get restClient
       = (Some (Infrastructure_Status infra), None) /\
     GetClusterStatusOrDie newForConfig get restClient
       = returned (Some (Infrastructure_Status infra))) \/
  (exists e,
     (newForConfig restClient = inr e \/
      exists client, newForConfig restClient = inl client /\
                     get client "cluster" = inr e) /\
     GetClusterStatus newForConfig get restClient = (None, Some (callee_error e)) /\
     GetClusterStatusOrDie newForConfig get restClient = panicked (callee_error e)).
Proof.
  unfold GetClusterStatusOrDie, GetClusterStatus, infraResourceName.
  destruct (newForConfig restClient) as [client|e] eqn:Hclient.
  - destruct (get client "cluster") as [infra|e] eqn:Hget.
    + left. exists client, infra. repeat split; assumption.
    + right. exists e. repeat split. right. exists client. split; [reflexivity|assumption].
  - right. exists e. repeat split. now left.
Qed.

End ClusterStatusProperties.

(** ** The figures of the comment of [LeaderElectionDefaulting] *)

Section DocumentedFigures.

Context {RestConfig Clientset Lock : Type}.
Variable env : Env RestConfig Clientset Lock.

(** X14.  For an input without durations the defaults give the figures that
    the comment of lines 87-104 states: a clock skew tolerance
    [leaseDuration - renewDeadline] of 30s, a last retry at 104s, 33s of
    lease left after it, a worst non-graceful acquisition
    [leaseDuration + retryPeriod] of 163s, a graceful one of 26s, and a
    downtime tolerance above the 60s that are asked for.  The single-node
    profile keeps the 30s of clock skew and tolerates more than 60s as
    well. *)
Theorem defaults_match_documented_figures
    (config : configv1.LeaderElection) (defaultNamespace defaultName : string)
    (w : World)
    (HLeaseDuration : metav1.Duration.Duration (configv1.LeaseDuration config) = 0)
    (HRenewDeadline : metav1.Duration.Duration (configv1.RenewDeadline config) = 0)
    (HRetryPeriod : metav1.Duration.Duration (configv1.RetryPeriod config) = 0) :
  let r := fst (LeaderElectionDefaulting env config defaultNamespace defaultName w) in
  let s := fst (LeaderElectionSNOConfig config w) in
  let leaseDuration c := metav1.Duration.Duration (configv1.LeaseDuration c) in
  let renewDeadline c := metav1.Duration.Duration (configv1.RenewDeadline c) in
  let retryPeriod c := metav1.Duration.Duration (configv1.RetryPeriod c) in
  (leaseDuration r - renewDeadline r = 30 * time.Second /\
   lastRetry (renewDeadline r) (retryPeriod r) = 104 * time.Second /\
   leaseDuration r - lastRetry (renewDeadline r) (retryPeriod r) = 33 * time.Second /\
   leaseDuration r + retryPeriod r = 163 * time.Second /\
   retryPeriod r = 26 * time.Second /\
   60 * time.Second <= downtimeTolerance (renewDeadline r) (retryPeriod r)) /\
  (leaseDuration s - renewDeadline s = 30 * time.Second /\
   60 * time.Second <= downtimeTolerance (renewDeadline s) (retryPeriod s)).
Proof.
  cbv zeta.
  rewrite LeaderElectionDefaulting_exec, LeaderElectionSNOConfig_exec.
  cbn [fst]. unfold defaulted, snoProfile, defaultTo. simpl_fields.
  rewrite HLeaseDuration, HRenewDeadline, HRetryPeriod.
  cbn [Z.eqb metav1.Duration.Duration].
  repeat split; try reflexivity; vm_compute; discriminate.
Qed.

End DocumentedFigures.

(** ** The further properties on concrete worlds *)

Lemma defaulted_config_passes_validation_witness :
  "openshift-etcd" <> "" /\ "etcd-lock" <> "" /\
  snd (fst (ToConfigMapLeaderElection goodEnv tt
              (fst (LeaderElectionDefaulting goodEnv configv1.LeaderElection_zero
                      "openshift-etcd" "etcd-lock" emptyWorld))
              "etcd" "" emptyWorld))
  <> Some (fmt_Errorf "namespace may not be empty").
Proof.
  assert (Hnamespace : "openshift-etcd" <> "") by discriminate.
  assert (Hname : "etcd-lock" <> "") by discriminate.
  split; [exact Hnamespace|]. split; [exact Hname|].
  apply (defaulted_config_passes_validation goodEnv tt configv1.LeaderElection_zero
           "openshift-etcd" "etcd-lock" "etcd" "" emptyWorld emptyWorld
           Hnamespace Hname).
Defined.

Lemma defaulted_config_gives_nonzero_durations_witness :
  snd (fst (ToConfigMapLeaderElection goodEnv tt
              (fst (LeaderElectionDefaulting goodEnv configv1.LeaderElection_zero
                      "openshift-etcd" "etcd-lock" emptyWorld))
              "etcd" "" emptyWorld)) = None /\
  leaderelection.LeaseDuration
    (fst (fst (ToConfigMapLeaderElection goodEnv tt
                 (fst (LeaderElectionDefaulting goodEnv configv1.LeaderElection_zero
                         "openshift-etcd" "etcd-lock" emptyWorld))
                 "etcd" "" emptyWorld))) <> 0.
Proof.
  split; [reflexivity|].
  apply (defaulted_config_gives_nonzero_durations goodEnv tt
           configv1.LeaderElection_zero "openshift-etcd" "etcd-lock" "etcd" ""
           emptyWorld emptyWorld _ eq_refl).
Defined.

Lemma constructor_client_failure_witness :
  kubernetes_NewForConfig brokenClientEnv tt
    = inr "invalid configuration: no server found" /\
  ToConfigMapLeaderElection brokenClientEnv tt explicitConfig "etcd" "" emptyWorld =
  (leaderelection.LeaderElectionConfig_zero,
   Some (callee_error "invalid configuration: no server found"),
   mkWorld [] [kubernetes_NewForConfig_call]).
Proof.
  split; [reflexivity|].
  exact (constructor_client_failure brokenClientEnv tt explicitConfig "etcd" ""
           emptyWorld _ eq_refl).
Defined.

Lemma constructor_calls_in_order_witness :
  kubernetes_NewForConfig goodEnv tt = inl tt /\
  configv1.Namespace explicitConfig <> "" /\ configv1.Name explicitConfig <> "" /\
  trace (snd (ToConfigMapLeaderElection goodEnv tt explicitConfig "etcd" ""
                emptyWorld)) =
  [kubernetes_NewForConfig_call; os_Hostname_call; uuid_NewUUID_call;
   record_NewBroadcaster_call; StartLogging_call; StartRecordingToSink_call;
   NewRecorder_call (corev1.mkEventSource "etcd");
   resourcelock_New_call "configmaps" "openshift-etcd" "etcd-lock"
     (resourcelock.mkResourceLockConfig
        "master-0_9f0e2a6c-7c1b-4d0e-8a53-2f6d1b7e4c11"
        (record.mkEventRecorder (corev1.mkEventSource "etcd")))].
Proof.
  assert (Hnamespace : configv1.Namespace explicitConfig <> "") by discriminate.
  assert (Hname : configv1.Name explicitConfig <> "") by discriminate.
  split; [reflexivity|]. split; [exact Hnamespace|]. split; [exact Hname|].
  rewrite (constructor_calls_in_order goodEnv tt explicitConfig "etcd" "" emptyWorld
             tt eq_refl Hnamespace Hname).
  reflexivity.
Defined.

Lemma caller_identity_used_verbatim_witness :
  "controller-7" <> "" /\
  holderIdentity goodEnv "controller-7" emptyWorld = ("controller-7", emptyWorld) /\
  In (resourcelock_New_call "configmaps" "openshift-etcd" "etcd-lock"
        (resourcelock.mkResourceLockConfig "controller-7"
           (record.mkEventRecorder (corev1.mkEventSource "etcd"))))
     (trace (snd (ToConfigMapLeaderElection goodEnv tt explicitConfig "etcd"
                    "controller-7" emptyWorld))).
Proof.
  assert (Hidentity : "controller-7" <> "") by discriminate.
  assert (Hnamespace : configv1.Namespace explicitConfig <> "") by discriminate.
  assert (Hname : configv1.Name explicitConfig <> "") by discriminate.
  destruct (caller_identity_used_verbatim goodEnv tt explicitConfig "etcd"
              "controller-7" emptyWorld tt Hidentity eq_refl Hnamespace Hname)
    as (Hid & Hlock & _).
  split; [exact Hidentity|]. split; [exact Hid|exact Hlock].
Defined.

Lemma holder_identities_differ_witness :
  os_Hostname goodEnv = os_Hostname otherProcessEnv /\
  uuid_NewUUID goodEnv <> uuid_NewUUID otherProcessEnv /\
  fst (holderIdentity goodEnv "" emptyWorld)
    <> fst (holderIdentity otherProcessEnv "" emptyWorld).
Proof.
  assert (Huuid : uuid_NewUUID goodEnv <> uuid_NewUUID otherProcessEnv)
    by discriminate.
  split; [reflexivity|]. split; [exact Huuid|].
  exact (holder_identities_differ goodEnv otherProcessEnv emptyWorld emptyWorld
           eq_refl Huuid).
Defined.

Lemma downtimeTolerance_bounds_witness :
  0 < 26 * time.Second /\
  107 * time.Second - 2 * (26 * time.Second)
    < downtimeTolerance (107 * time.Second) (26 * time.Second)
    <= 107 * time.Second - 26 * time.Second.
Proof.
  split; [reflexivity|].
  apply (downtimeTolerance_bounds (107 * time.Second) (26 * time.Second) eq_refl).
Defined.

Lemma defaults_match_documented_figures_witness :
  metav1.Duration.Duration (configv1.LeaseDuration configv1.LeaderElection_zero) = 0 /\
  metav1.Duration.Duration (configv1.RenewDeadline configv1.LeaderElection_zero) = 0 /\
  metav1.Duration.Duration (configv1.RetryPeriod configv1.LeaderElection_zero) = 0 /\
  let r := fst (LeaderElectionDefaulting goodEnv configv1.LeaderElection_zero "" "lock"
                  emptyWorld) in
  metav1.Duration.Duration (configv1.LeaseDuration r)
    + metav1.Duration.Duration (configv1.RetryPeriod r) = 163 * time.Second.
Proof.
  destruct (defaults_match_documented_figures goodEnv configv1.LeaderElection_zero ""
              "lock" emptyWorld eq_refl eq_refl eq_refl)
    as [(_ & _ & _ & Hworst & _) _].
  do 3 (split; [reflexivity|]). exact Hworst.
Defined.

Lemma sync_when_monitor_disabled_witness :
  startupMonitorEnabledFn
    (exampleController (inl false) (inl [rolledBackPod]) None) tt = inl false /\
  sync fallbackForRevisionKey fallbackReasonKey fallbackMessageKey
    (exampleController (inl false) (inl [rolledBackPod]) None) =
  (None,
   [startupMonitorEnabledFn_call;
    ApplyOperatorStatus_call "kube-apiserver-StaticPodStateFallback"
      (applyoperatorv1.mkOperatorStatus
         [applyoperatorv1.mkOperatorCondition
            (Some "StaticPodFallbackRevisionDegraded")
            (Some operatorv1.ConditionFalse) None None])]).
Proof.
  split; [reflexivity|].
  exact (sync_when_monitor_disabled fallbackForRevisionKey fallbackReasonKey
           fallbackMessageKey
           (exampleController (inl false) (inl [rolledBackPod]) None) eq_refl).
Defined.

Lemma sync_error_applies_nothing_witness :
  podLister (exampleController (inl true) (inr "lister not synced") None)
    "app=kube-apiserver" = inr "lister not synced" /\
  fst (sync fallbackForRevisionKey fallbackReasonKey fallbackMessageKey
         (exampleController (inl true) (inr "lister not synced") None))
    = Some (callee_error "lister not synced").
Proof.
  split; [reflexivity|].
  apply (sync_error_applies_nothing fallbackForRevisionKey fallbackReasonKey
           fallbackMessageKey
           (exampleController (inl true) (inr "lister not synced") None)
           "lister not synced" (or_intror (conj eq_refl eq_refl))).
Defined.

Lemma sync_reports_fallback_witness :
  let fd := exampleController (inl true) (inl [healthyPod; rolledBackPod])
              (Some "conflict") in
  startupMonitorEnabledFn fd tt = inl true /\
  podLister fd (podLabelSelector fd) = inl [healthyPod; rolledBackPod] /\
  fst (sync fallbackForRevisionKey fallbackReasonKey fallbackMessageKey fd)
    = Some (callee_error "conflict") /\
  applyoperatorv1.Status
    (degradedConditionFor fallbackForRevisionKey fallbackReasonKey fallbackMessageKey
       (applyoperatorv1.WithType "StaticPodFallbackRevisionDegraded"
          applyoperatorv1.OperatorCondition) [healthyPod; rolledBackPod])
    = Some operatorv1.ConditionTrue.
Proof.
  cbv zeta.
  destruct (sync_reports_fallback fallbackForRevisionKey fallbackReasonKey
              fallbackMessageKey
              (exampleController (inl true) (inl [healthyPod; rolledBackPod])
                 (Some "conflict"))
              [healthyPod; rolledBackPod] eq_refl eq_refl)
    as (Hsync & _ & Hstatus).
  split; [reflexivity|]. split; [reflexivity|].
  split; [rewrite Hsync; reflexivity|exact Hstatus].
Defined.

Lemma degraded_message_lists_every_fallback_witness :
  existsb (isFallback fallbackForRevisionKey)
    [rolledBackPod; healthyPod; bareRolledBackPod] = true /\
  applyoperatorv1.Message
    (degradedConditionFor fallbackForRevisionKey fallbackReasonKey fallbackMessageKey
       applyoperatorv1.OperatorCondition
       [rolledBackPod; healthyPod; bareRolledBackPod]) =
  Some ("a static pod kube-apiserver-master-1 was rolled back to revision 8 due to readyz timed out"
        ++ newline ++
        "a static pod kube-apiserver-master-2 was rolled back to revision 9 due to unknown")%string.
Proof.
  split; [reflexivity|].
  rewrite (degraded_message_lists_every_fallback fallbackForRevisionKey
             fallbackReasonKey fallbackMessageKey applyoperatorv1.OperatorCondition
             [rolledBackPod; healthyPod; bareRolledBackPod] eq_refl).
  reflexivity.
Defined.

Lemma degraded_reason_is_first_nonempty_witness :
  existsb (isFallback fallbackForRevisionKey)
    [healthyPod; bareRolledBackPod; rolledBackPod] = true /\
  applyoperatorv1.Reason
    (degradedConditionFor fallbackForRevisionKey fallbackReasonKey fallbackMessageKey
       applyoperatorv1.OperatorCondition
       [healthyPod; bareRolledBackPod; rolledBackPod]) = Some "Unknown".
Proof.
  split; [reflexivity|].
  rewrite (degraded_reason_is_first_nonempty fallbackForRevisionKey
             fallbackReasonKey fallbackMessageKey applyoperatorv1.OperatorCondition
             [healthyPod; bareRolledBackPod; rolledBackPod] eq_refl).
  reflexivity.
Defined.

Lemma New_requires_selector_witness :
  snd (New fallbackForRevisionKey fallbackReasonKey fallbackMessageKey
         (fun sel : string => String.eqb sel "")
         (fun instanceName suffix => (instanceName ++ "-" ++ suffix)%string)
         "kube-apiserver" "openshift-kube-apiserver" (Some "")
         (fun _ _ => None) (fun _ _ => inl []) (fun _ => inl true) tt)
  <> None.
Proof.
  destruct (New_requires_selector fallbackForRevisionKey fallbackReasonKey
              fallbackMessageKey (fun sel : string => String.eqb sel "")
              (fun instanceName suffix => (instanceName ++ "-" ++ suffix)%string)
              "kube-apiserver" "openshift-kube-apiserver" (Some "")
              (fun _ _ => None) (fun _ _ => inl []) (fun _ => inl true) tt)
    as [[_ Hfails] _].
  apply Hfails. right. exists "". split; reflexivity.
Defined.
